(** * Straeto: the bus package (bus/bus.py)

    A shallow embedding of the schedule catalog ([BusTrip], [BusService],
    [BusRoute]), the stop directory ([BusStop]) and the fleet state cache
    ([Bus]) of bus/bus.py, with the properties of their specification.

    Conventions of the embedding:
    - a Python [str] is a [string]; its characters are read as the code
      points 0..255;
    - a Python [int] is a [Z], a Python [float] is a binary64 [float];
    - a [dict] is a [gmap]; the class attributes that hold the registries
      are the fields of an explicit state record;
    - a call that can raise returns a [result]; code that mutates a
      registry before raising returns the state it leaves behind together
      with the exception. *)

From Stdlib Require Import ZArith Ascii String PrimFloat.
From stdpp Require Import base option list gmap strings.

Local Open Scope Z_scope.

(** ** Exceptions and results *)

Inductive exn : Set :=
  | AssertionError
  | IndexError
  | KeyError
  | TypeError
  | ValueError
  | OSError
  | ConnectionError
  | ParseError.

Inductive result (A : Type) : Type :=
  | Ok (a : A)
  | Raise (e : exn).
Arguments Ok {A} a.
Arguments Raise {A} e.

Definition is_ok {A} (r : result A) : bool :=
  match r with Ok _ => true | Raise _ => false end.

Definition result_bind {A B} (r : result A) (k : A -> result B) : result B :=
  match r with Ok a => k a | Raise e => Raise e end.

Notation "x <-? r ; k" := (result_bind r (fun x => k))
  (at level 100, r at next level, right associativity).

(** A computation over a state [S]: the state it leaves behind, and the
    value it returns or the exception it raises.  The state survives an
    exception, as the attributes of a Python class do. *)
Definition M (S A : Type) : Type := S -> S * result A.

Definition ret {S A} (a : A) : M S A := fun s => (s, Ok a).
Definition throw {S A} (e : exn) : M S A := fun s => (s, Raise e).
Definition bind {S A B} (m : M S A) (k : A -> M S B) : M S B :=
  fun s => match m s with
           | (s', Ok a) => k a s'
           | (s', Raise e) => (s', Raise e)
           end.
Definition lift {S A} (r : result A) : M S A := fun s => (s, r).
Definition gets {S A} (f : S -> A) : M S A := fun s => (s, Ok (f s)).
Definition modify {S} (f : S -> S) : M S unit := fun s => (f s, Ok tt).

Notation "x <- m ;; k" := (bind m (fun x => k))
  (at level 100, m at next level, right associativity).
Notation "m ;;; k" := (bind m (fun _ => k))
  (at level 100, right associativity).

(** ** Strings *)

Module Str.

(** [str.isspace] on the code points below 256. *)
Definition is_space (c : ascii) : bool :=
  let n := Z.of_nat (nat_of_ascii c) in
  ((9 <=? n) && (n <=? 13)) || ((28 <=? n) && (n <=? 32))
  || (n =? 133) || (n =? 160).

Fixpoint lstrip (s : string) : string :=
  match s with
  | String c s' => if is_space c then lstrip s' else s
  | EmptyString => EmptyString
  end.

(** [rstrip] keeps a character when it is not a space or when something
    is left after it. *)
Fixpoint rstrip (s : string) : string :=
  match s with
  | EmptyString => EmptyString
  | String c s' =>
      match rstrip s' with
      | EmptyString => if is_space c then EmptyString else String c EmptyString
      | r => String c r
      end
  end.

(** [s.strip()] *)
Definition strip (s : string) : string := rstrip (lstrip s).

(** [s[a:b]] for [0 <= a <= b]: the slice is clamped to the string. *)
Definition slice (a b : nat) (s : string) : string :=
  String.substring a (b - a) s.

(** [s.split(sep)] for a separator of one character: the fields between
    the separators, at least one. *)
Fixpoint split (sep : ascii) (s : string) : list string :=
  match s with
  | EmptyString => [EmptyString]
  | String c s' =>
      if Ascii.eqb c sep then EmptyString :: split sep s'
      else match split sep s' with
           | f :: fs => String c f :: fs
           | [] => [String c EmptyString]
           end
  end.

Definition to_list (s : string) : list ascii := String.list_ascii_of_string s.

End Str.

(** ** [int(s)] on a string

    Python strips white space at both ends, reads an optional sign, and
    then decimal digits in which single underscores may separate digits.
    Anything else is a [ValueError]. *)

Module PyInt.

Definition digit (c : ascii) : option Z :=
  let n := Z.of_nat (nat_of_ascii c) in
  if (48 <=? n) && (n <=? 57) then Some (n - 48) else None.

(** [digits acc prev_us s]: the digits of [s] appended to [acc];
    [prev_us] says that the previous character was an underscore. *)
Fixpoint digits (acc : Z) (prev_us : bool) (s : string) : option Z :=
  match s with
  | EmptyString => if prev_us then None else Some acc
  | String c s' =>
      if Ascii.eqb c "_"%char then
        if prev_us then None else digits acc true s'
      else
        match digit c with
        | Some d => digits (10 * acc + d) false s'
        | None => None
        end
  end.

(** The unsigned part: it starts with a digit. *)
Definition unsigned (s : string) : option Z :=
  match s with
  | EmptyString => None
  | String c _ =>
      match digit c with
      | Some _ => digits 0 false s
      | None => None
      end
  end.

Definition parse (s : string) : option Z :=
  match Str.strip s with
  | String "+"%char t => unsigned t
  | String "-"%char t => Z.opp <$> unsigned t
  | t => unsigned t
  end.

(** [int(s)] *)
Definition int (s : string) : result Z :=
  match parse s with
  | Some n => Ok n
  | None => Raise ValueError
  end.

(** [int(x)] where [x] is a string or [None]. *)
Definition int_opt (x : option string) : result Z :=
  match x with
  | Some s => int s
  | None => Raise TypeError
  end.

End PyInt.

(** ** [datetime.date]

    [date(y, m, d)] checks its fields; dates compare as the triples
    (year, month, day); [weekday()] is 0 on Monday and 6 on Sunday. *)

Module PyDate.

Record date : Set := Date { year : Z; month : Z; day : Z }.

Definition is_leap (y : Z) : bool :=
  (y mod 4 =? 0) && (negb (y mod 100 =? 0) || (y mod 400 =? 0)).

Definition days_in_month (y m : Z) : Z :=
  if (m =? 2) && is_leap y then 29
  else match m with
       | 1 => 31 | 2 => 28 | 3 => 31 | 4 => 30 | 5 => 31 | 6 => 30
       | 7 => 31 | 8 => 31 | 9 => 30 | 10 => 31 | 11 => 30 | 12 => 31
       | _ => 0
       end.

Definition days_before_year (y : Z) : Z :=
  let p := y - 1 in p * 365 + p / 4 - p / 100 + p / 400.

Definition days_before_month (y m : Z) : Z :=
  match m with
  | 1 => 0 | 2 => 31 | 3 => 59 | 4 => 90 | 5 => 120 | 6 => 151
  | 7 => 181 | 8 => 212 | 9 => 243 | 10 => 273 | 11 => 304 | 12 => 334
  | _ => 0
  end + (if (2 <? m) && is_leap y then 1 else 0).

Definition valid (y m d : Z) : bool :=
  (1 <=? y) && (y <=? 9999) && (1 <=? m) && (m <=? 12)
  && (1 <=? d) && (d <=? days_in_month y m).

(** [date(y, m, d)] *)
Definition make (y m d : Z) : result date :=
  if valid y m d then Ok (Date y m d) else Raise ValueError.

Definition toordinal (x : date) : Z :=
  days_before_year (year x) + days_before_month (year x) (month x) + day x.

(** [x.weekday()] *)
Definition weekday (x : date) : nat := Z.to_nat ((toordinal x + 6) mod 7).

(** [x <= y] *)
Definition le (x y : date) : bool :=
  (year x <? year y)
  || ((year x =? year y)
      && ((month x <? month y)
          || ((month x =? month y) && (day x <=? day y)))).

(** [x < y] *)
Definition lt (x y : date) : bool := negb (le y x).

End PyDate.

Import PyDate.

(** ** The schedule catalog: trips, services, routes *)

Record BusTrip : Set := {
  trip_id : string;
  headsign : string;
  short_name : string;
  direction : string;
  block : string
}.

(** A service object.  [weekdays] is the list built from the characters
    9..15 of the service code, Monday first. *)
Record BusService : Type := {
  service_id : string;
  service_trips : gmap string BusTrip;
  valid_from : date;
  weekdays : list bool
}.

(** A route object.  Its [_services] dict maps the id of a service to the
    service object, which is the object registered under that id in
    [BusService._all_services] (a service registers itself when it is
    built, and nothing is ever removed from that registry); the model
    keeps the keys and reads the objects from the registry. *)
Record BusRoute : Type := {
  route_id : string;
  route_services : gset string
}.

(** The class attributes [BusTrip._all_trips], [BusService._all_services]
    and [BusRoute._all_routes]. *)
Record Catalog : Type := {
  all_trips : gmap string BusTrip;
  all_services : gmap string BusService;
  all_routes : gmap string BusRoute
}.

Definition empty_catalog : Catalog :=
  {| all_trips := ∅; all_services := ∅; all_routes := ∅ |}.

Definition set_trips (f : gmap string BusTrip -> gmap string BusTrip) (c : Catalog) : Catalog :=
  {| all_trips := f (all_trips c); all_services := all_services c; all_routes := all_routes c |}.
Definition set_services (f : gmap string BusService -> gmap string BusService) (c : Catalog) : Catalog :=
  {| all_trips := all_trips c; all_services := f (all_services c); all_routes := all_routes c |}.
Definition set_routes (f : gmap string BusRoute -> gmap string BusRoute) (c : Catalog) : Catalog :=
  {| all_trips := all_trips c; all_services := all_services c; all_routes := f (all_routes c) |}.

(** [BusTrip(trip_id=.., headsign=.., ...)] *)
Definition BusTrip_init (t : BusTrip) : M Catalog BusTrip :=
  modify (set_trips <[trip_id t := t]>) ;;; ret t.

(** [BusTrip.get(trip_id)] *)
Definition BusTrip_get (tid : string) (c : Catalog) : option BusTrip :=
  all_trips c !! tid.

(** The weekday list of a service code: [[c != "-" for c in sid[9:16]]] *)
Definition decode_weekdays (sid : string) : list bool :=
  map (fun c => negb (Ascii.eqb c "-"%char)) (Str.to_list (Str.slice 9 16 sid)).

(** The start date of a service code:
    [date(int(sid[0:4]), int(sid[4:6]), int(sid[6:8]))] *)
Definition decode_valid_from (sid : string) : result date :=
  y <-? PyInt.int (Str.slice 0 4 sid);
  m <-? PyInt.int (Str.slice 4 6 sid);
  d <-? PyInt.int (Str.slice 6 8 sid);
  PyDate.make y m d.

(** [BusService(service_id)] *)
Definition BusService_init (sid : string) : M Catalog BusService :=
  vf <- lift (decode_valid_from sid) ;;
  let s := {| service_id := sid; service_trips := ∅;
              valid_from := vf; weekdays := decode_weekdays sid |} in
  modify (set_services <[sid := s]>) ;;; ret s.

(** [BusService.get(service_id)] *)
Definition BusService_get (sid : string) : M Catalog BusService :=
  fun c => match all_services c !! sid with
           | Some s => (c, Ok s)
           | None => BusService_init sid c
           end.

(** [s.is_active_on_date(on_date)] *)
Definition is_active_on_date (s : BusService) (on_date : date) : result bool :=
  if PyDate.le (valid_from s) on_date then
    match weekdays s !! weekday on_date with
    | Some b => Ok b
    | None => Raise IndexError
    end
  else Ok false.

(** [s.is_active_on_weekday(weekday)], for a weekday that is not negative *)
Definition is_active_on_weekday (s : BusService) (wd : nat) : result bool :=
  match weekdays s !! wd with
  | Some b => Ok b
  | None => Raise IndexError
  end.

(** [service.add_trip(trip)], on the service object found under [sid] *)
Definition add_trip (sid : string) (t : BusTrip) : M Catalog unit :=
  modify (set_services (alter (fun s =>
    {| service_id := service_id s;
       service_trips := <[trip_id t := t]> (service_trips s);
       valid_from := valid_from s; weekdays := weekdays s |}) sid)).

(** [BusRoute(route_id)] *)
Definition BusRoute_init (rid : string) : M Catalog BusRoute :=
  let r := {| route_id := rid; route_services := ∅ |} in
  modify (set_routes <[rid := r]>) ;;; ret r.

(** [BusRoute.get(route_id)] *)
Definition BusRoute_get (rid : string) : M Catalog BusRoute :=
  fun c => match all_routes c !! rid with
           | Some r => (c, Ok r)
           | None => BusRoute_init rid c
           end.

(** [route.add_service(service)], on the route object found under [rid];
    [sid] is [service.id] *)
Definition add_service (rid : string) (sid : string) : M Catalog unit :=
  modify (set_routes (alter (fun r =>
    {| route_id := route_id r;
       route_services := {[sid]} ∪ route_services r |}) rid)).

(** [route.active_services(on_date)]: the services of the route that are
    active on the date (the order of the result is not modelled). *)
Definition active_services (c : Catalog) (r : BusRoute) (on_date : date)
  : result (list BusService) :=
  foldr (fun sid acc =>
           rest <-? acc;
           match all_services c !! sid with
           | Some s => b <-? is_active_on_date s on_date;
                       Ok (if b then s :: rest else rest)
           | None => Ok rest
           end)
        (Ok []) (elements (route_services r)).

(** One row of trips.txt, already stripped and not empty.  The [assert]
    statements of the module are taken as executed. *)
Definition trips_row (line : string) : M Catalog unit :=
  match Str.split ","%char line with
  | [f0; f1; f2; f3; f4; f5; f6; _] =>
      match Str.split "."%char f0 !! 1%nat with
      | None => throw IndexError
      | Some rid =>
          route <- BusRoute_get rid ;;
          service <- BusService_get f1 ;;
          add_service rid (service_id service) ;;;
          trip <- BusTrip_init {| trip_id := f2; headsign := f3; short_name := f4;
                                  direction := f5; block := f6 |} ;;
          add_trip f1 trip
      end
  | _ => throw AssertionError
  end.

(** The loop over the lines that follow the header. *)
Fixpoint trips_rows (lines : list string) : M Catalog unit :=
  match lines with
  | [] => ret tt
  | line :: rest =>
      match Str.strip line with
      | EmptyString => trips_rows rest
      | l => trips_row l ;;; trips_rows rest
      end
  end.

(** [BusRoute.initialize()].  [file] is the content of trips.txt as its
    lines, or [None] when the file cannot be opened. *)
Definition BusRoute_initialize (file : option (list string)) : M Catalog unit :=
  modify (set_routes (fun _ => ∅)) ;;;
  match file with
  | None => throw OSError
  | Some lines => trips_rows (drop 1 lines)
  end.

(** ** XML elements, as [xml.etree.ElementTree] gives them *)

#[warnings="-register-all"]
Inductive Element : Type :=
  Elem (tag : string) (attrib : gmap string string) (children : list Element).

Definition elem_tag (e : Element) : string := let 'Elem t _ _ := e in t.
Definition elem_attrib (e : Element) : gmap string string := let 'Elem _ a _ := e in a.
Definition elem_children (e : Element) : list Element := let 'Elem _ _ c := e in c.

(** [e.get(key)]: the attribute, or [None] *)
Definition elem_get (e : Element) (key : string) : option string :=
  elem_attrib e !! key.

(** [e.findall(tag)]: the children of [e] with that tag, in document order *)
Definition findall (t : string) (e : Element) : list Element :=
  filter (fun c => elem_tag c = t) (elem_children e).

(** What the XML parser makes of a text: a parse error, or the root. *)
Inductive xml_doc : Type :=
  | Malformed
  | Document (root : Element).

(** What [requests.get(_STATUS_URL)] does: it raises when there is no
    connection, or returns a response with a status code and a body (the
    body is given by what [ET.fromstring] makes of it). *)
Inductive http_outcome : Type :=
  | NoConnection
  | Response (status_code : Z) (text : xml_doc).

(** What reading resources/status.xml does: the file cannot be read, or
    it has a content (given by what [ET.parse] makes of it). *)
Inductive file_outcome : Type :=
  | Unreadable
  | Content (doc : xml_doc).

(** The surroundings of one call of [refresh_state]: the clock, in
    microseconds, when the age of the state is checked and when the load
    ends, the remote endpoint and the local file. *)
Record World : Type := {
  now : Z;
  remote : http_outcome;
  status_file : file_outcome;
  load_end : Z
}.

(** The input and output that a refresh performs, in the order performed. *)
Inductive io_event : Set := Fetch | Read.

Global Instance io_event_eq_dec : EqDecision io_event.
Proof. solve_decision. Defined.

Definition requests_codes_ok : Z := 200.

(** [-90.0 <= lat <= 90.0] and [-180.0 <= lon <= 180.0] *)
Definition lat_in_range (lat : float) : bool :=
  PrimFloat.leb (-90)%float lat && PrimFloat.leb lat 90%float.
Definition lon_in_range (lon : float) : bool :=
  PrimFloat.leb (-180)%float lon && PrimFloat.leb lon 180%float.

Section Floats.

(** [float(s)] on a string: the value, or [None] for a [ValueError]. *)
Variable float_of_string : string -> option float.

(** [float(x)] where [x] is a string or [None]. *)
Definition py_float (x : option string) : result float :=
  match x with
  | None => Raise TypeError
  | Some s =>
      match float_of_string s with
      | Some v => Ok v
      | None => Raise ValueError
      end
  end.

(** *** The stop directory *)

Record BusStop : Type := {
  stop_id : string;
  stop_name : string;
  stop_location : float * float
}.

(** [BusStop._all_stops] is the state. *)
Definition BusStop_init (sid name : string) (loc : float * float)
  : M (gmap string BusStop) unit :=
  let '(lat, lon) := loc in
  if negb (lat_in_range lat) then throw AssertionError
  else if negb (lon_in_range lon) then throw AssertionError
  else modify <[sid := {| stop_id := sid; stop_name := name; stop_location := loc |}]>.

(** [BusStop.lookup(stop_id)] *)
Definition BusStop_lookup (sid : string) (stops : gmap string BusStop)
  : option BusStop := stops !! sid.

Definition stops_row (line : string) : M (gmap string BusStop) unit :=
  match Str.split ","%char line with
  | [f0; f1; f2; f3; _] =>
      lat <- lift (py_float (Some f2)) ;;
      lon <- lift (py_float (Some f3)) ;;
      BusStop_init (Str.strip f0) (Str.strip f1) (lat, lon)
  | _ => throw AssertionError
  end.

Fixpoint stops_rows (lines : list string) : M (gmap string BusStop) unit :=
  match lines with
  | [] => ret tt
  | line :: rest =>
      match Str.strip line with
      | EmptyString => stops_rows rest
      | l => stops_row l ;;; stops_rows rest
      end
  end.

(** [BusStop.initialize()], on the lines of stops.txt *)
Definition BusStop_initialize (file : option (list string))
  : M (gmap string BusStop) unit :=
  match file with
  | None => throw OSError
  | Some lines => stops_rows (drop 1 lines)
  end.

(** *** The fleet state *)

Record Bus : Type := {
  bus_route_id : option string;
  bus_stop : option string;
  bus_next_stop : option string;
  bus_location : float * float;
  bus_heading : float;
  bus_code : Z
}.

(** The class attributes [Bus._all_buses] (either [None] or a
    [defaultdict(list)] keyed by route id, where a record without a
    route attribute has the key [None]) and [Bus._timestamp], and the
    record of the fetches and reads performed so far. *)
Record BusState : Type := {
  all_buses : option (gmap (option string) (list Bus));
  timestamp : option Z;
  io_log : list io_event
}.

Definition initial_state : BusState :=
  {| all_buses := None; timestamp := None; io_log := [] |}.

Definition set_all_buses (v : option (gmap (option string) (list Bus)))
  (st : BusState) : BusState :=
  {| all_buses := v; timestamp := timestamp st; io_log := io_log st |}.
Definition set_timestamp (v : option Z) (st : BusState) : BusState :=
  {| all_buses := all_buses st; timestamp := v; io_log := io_log st |}.
Definition log (e : io_event) : M BusState unit :=
  modify (fun st => {| all_buses := all_buses st; timestamp := timestamp st;
                       io_log := io_log st ++ [e] |}).

Definition fetches (st : BusState) : nat := length (filter (fun e => e = Fetch) (io_log st)).
Definition reads (st : BusState) : nat := length (filter (fun e => e = Read) (io_log st)).

(** [d[key]] on a [defaultdict(list)]: a missing key is inserted with
    an empty list. *)
Definition defaultdict_getitem (key : option string)
  (d : gmap (option string) (list Bus))
  : gmap (option string) (list Bus) * list Bus :=
  match d !! key with
  | Some l => (d, l)
  | None => (<[key := []]> d, [])
  end.

(** [Bus._all_buses[key]] *)
Definition all_buses_getitem (key : option string) : M BusState (list Bus) :=
  fun st => match all_buses st with
            | None => (st, Raise TypeError)
            | Some d => let '(d', l) := defaultdict_getitem key d in
                        (set_all_buses (Some d') st, Ok l)
            end.

(** [Bus(route_id=.., ...)]: the checks, then
    [Bus._all_buses[self._route_id].append(self)] *)
Definition Bus_init (b : Bus) : M BusState unit :=
  let '(lat, lon) := bus_location b in
  if negb (lat_in_range lat) then throw AssertionError
  else if negb (lon_in_range lon) then throw AssertionError
  else
    l <- all_buses_getitem (bus_route_id b) ;;
    modify (fun st => set_all_buses (<[bus_route_id b := l ++ [b]]> <$> all_buses st) st).

(** [Bus._fetch_state()] *)
Definition Bus_fetch_state (w : World) : M BusState (option Element) :=
  log Fetch ;;;
  match remote w with
  | NoConnection => throw ConnectionError
  | Response sc body =>
      if sc =? requests_codes_ok then
        match body with
        | Document root => ret (Some root)
        | Malformed => throw ParseError
        end
      else ret None
  end.

(** [Bus._read_state()] *)
Definition Bus_read_state (w : World) : M BusState Element :=
  log Read ;;;
  match status_file w with
  | Unreadable => throw OSError
  | Content Malformed => throw ParseError
  | Content (Document root) => ret root
  end.

(** The body of the loop of [_load_state] *)
Definition load_bus (bus : Element) : M BusState unit :=
  lat <- lift (py_float (elem_get bus "lat")) ;;
  lon <- lift (py_float (elem_get bus "lon")) ;;
  heading <- lift (py_float (elem_get bus "head")) ;;
  code <- lift (PyInt.int_opt (elem_get bus "code")) ;;
  Bus_init {| bus_route_id := elem_get bus "route";
              bus_stop := elem_get bus "stop";
              bus_next_stop := elem_get bus "next";
              bus_location := (lat, lon);
              bus_heading := heading;
              bus_code := code |}.

Fixpoint load_buses (l : list Element) : M BusState unit :=
  match l with
  | [] => ret tt
  | bus :: rest => load_bus bus ;;; load_buses rest
  end.

(** The part of [_load_state] that follows the choice of the source *)
Definition load_root (w : World) (root : Element) : M BusState unit :=
  load_buses (findall "bus" root) ;;;
  modify (set_timestamp (Some (load_end w))).

(** [Bus._load_state()] *)
Definition Bus_load_state (w : World) : M BusState unit :=
  modify (set_all_buses (Some ∅)) ;;;
  fetched <- Bus_fetch_state w ;;
  root <- match fetched with
          | None => Bus_read_state w
          | Some r => ret r
          end ;;
  load_root w root.

Definition staleness_window : Z := 60 * 1000000.

(** [Bus.refresh_state()].  The lock is taken on entry and released on
    every way out; a single caller is modelled. *)
Definition Bus_refresh_state (w : World) : M BusState unit :=
  fun st => match timestamp st with
            | Some ts =>
                if now w - ts <? staleness_window then (st, Ok tt)
                else Bus_load_state w st
            | None => Bus_load_state w st
            end.

(** [Bus.all_buses()] *)
Definition Bus_all_buses (w : World)
  : M BusState (option (gmap (option string) (list Bus))) :=
  Bus_refresh_state w ;;; gets all_buses.

(** [Bus.buses_on_route(route_id)] *)
Definition Bus_buses_on_route (w : World) (rid : option string)
  : M BusState (list Bus) :=
  Bus_refresh_state w ;;; all_buses_getitem rid.

End Floats.

(** ** Notions used to state the properties *)

Module PyIntSpec.
Import PyInt.




End PyIntSpec.


(** A row that the loaders refuse: it is not blank, and it does not have
    [n] fields. *)
Definition wrong_field_count (n : nat) (row : string) : Prop :=
  Str.strip row <> EmptyString
  /\ length (Str.split ","%char (Str.strip row)) <> n.

(** Sample resources. *)
Definition trips_header : string :=
  "route_id,service_id,trip_id,trip_headsign,trip_short_name,direction_id,block_id,shape_id".
Definition trips_sample_a : list string :=
  [trips_header; "ST.17,20240115-M------,t1,Hlemmur,17,0,b1,s1"].
Definition trips_sample_b : list string :=
  [trips_header; "ST.18,20240301-MTWTF--,t2,Mjodd,18,1,b2,s2"].
Definition trips_sample_short_row : list string :=
  [trips_header; "ST.17,20240115-M------,t1,Hlemmur,17,0,b1,s1";
   "ST.18,20240301-MTWTF--,t2,Mjodd,18,1,b2"].
Definition stops_header : string := "stop_id,stop_name,stop_lat,stop_lon,location_type".

Definition trip_t1 : BusTrip :=
  {| trip_id := "t1"; headsign := "Hlemmur"; short_name := "17";
     direction := "0"; block := "b1" |}.
Definition trip_t2 : BusTrip :=
  {| trip_id := "t2"; headsign := "Mjodd"; short_name := "18";
     direction := "1"; block := "b2" |}.

(** *** Parsing a feed document directly

    The records of a document, read one by one into a mapping from route
    id to the list of its sightings, without any cache around it. *)
Section DirectParse.
Variable float_of_string : string -> option float.

Definition parse_bus (bus : Element) : result Bus :=
  lat <-? py_float float_of_string (elem_get bus "lat");
  lon <-? py_float float_of_string (elem_get bus "lon");
  heading <-? py_float float_of_string (elem_get bus "head");
  code <-? PyInt.int_opt (elem_get bus "code");
  if negb (lat_in_range lat) then Raise AssertionError
  else if negb (lon_in_range lon) then Raise AssertionError
  else Ok {| bus_route_id := elem_get bus "route";
             bus_stop := elem_get bus "stop";
             bus_next_stop := elem_get bus "next";
             bus_location := (lat, lon);
             bus_heading := heading;
             bus_code := code |}.

Definition add_bus (b : Bus) (m : gmap (option string) (list Bus))
  : gmap (option string) (list Bus) :=
  <[bus_route_id b := default [] (m !! bus_route_id b) ++ [b]]> m.

(** The mapping after the records of [l], and the exception of the
    first record that cannot be read, if there is one. *)
Fixpoint group_buses (l : list Element) (m : gmap (option string) (list Bus))
  : gmap (option string) (list Bus) * result unit :=
  match l with
  | [] => (m, Ok tt)
  | bus :: rest =>
      match parse_bus bus with
      | Ok b => group_buses rest (add_bus b m)
      | Raise e => (m, Raise e)
      end
  end.

Definition parse_snapshot (root : Element)
  : result (gmap (option string) (list Bus)) :=
  let '(m, r) := group_buses (findall "bus" root) ∅ in
  _ <-? r; Ok m.

End DirectParse.

(** The state is due for a refresh at the time of the call. *)
Definition stale (st : BusState) (w : World) : bool :=
  match timestamp st with
  | Some ts => negb (now w - ts <? staleness_window)
  | None => true
  end.

(** Reachable states have a mapping whenever they have a timestamp. *)
Definition wf_state (st : BusState) : Prop :=
  is_Some (timestamp st) -> is_Some (all_buses st).

(** The state after the input and output [es] were performed. *)
Definition logged (es : list io_event) (st : BusState) : BusState :=
  {| all_buses := all_buses st; timestamp := timestamp st;
     io_log := io_log st ++ es |}.

(** The document a load works on, with the input and output performed to
    get it, or the exception raised on the way. *)
Definition choose_source (w : World)
  : list io_event * result Element :=
  match remote w with
  | NoConnection => ([Fetch], Raise ConnectionError)
  | Response sc body =>
      if sc =? requests_codes_ok then
        match body with
        | Document root => ([Fetch], Ok root)
        | Malformed => ([Fetch], Raise ParseError)
        end
      else
        match status_file w with
        | Unreadable => ([Fetch; Read], Raise OSError)
        | Content Malformed => ([Fetch; Read], Raise ParseError)
        | Content (Document root) => ([Fetch; Read], Ok root)
        end
  end.

(** The remote endpoint gives no usable document. *)
Definition remote_unavailable (r : http_outcome) : bool :=
  match r with
  | NoConnection => true
  | Response sc Malformed => true
  | Response sc (Document _) => negb (sc =? requests_codes_ok)
  end.

(** The local file gives no usable document. *)
Definition local_unavailable (f : file_outcome) : bool :=
  match f with
  | Content (Document _) => false
  | _ => true
  end.

(** A stand-in for [float] on the strings of the samples below. *)
Definition sample_float_of_string (s : string) : option float :=
  if String.eqb s "64.5" then Some 64.5%float
  else if String.eqb s "-21.75" then Some (-21.75)%float
  else if String.eqb s "90.0" then Some 90%float
  else if String.eqb s "270.0" then Some 270%float
  else None.

Definition sample_bus_element : Element :=
  Elem "bus" (list_to_map [("lat", "64.5"); ("lon", "-21.75"); ("head", "90.0");
                           ("route", "17"); ("stop", "90000295");
                           ("next", "90000018"); ("code", "6")]) [].

Definition sample_bus : Bus :=
  {| bus_route_id := Some "17"; bus_stop := Some "90000295";
     bus_next_stop := Some "90000018"; bus_location := (64.5%float, (-21.75)%float);
     bus_heading := 90%float; bus_code := 6 |}.

Definition sample_root : Element := Elem "buses" ∅ [sample_bus_element].

(** A state that holds a snapshot taken at time 0. *)
Definition sample_state : BusState :=
  {| all_buses := Some {[Some "17" := [sample_bus]]};
     timestamp := Some 0; io_log := [Fetch] |}.

(** Sample surroundings of a call, two minutes after time 0. *)
Definition world_all_down : World :=
  {| now := 120000000; remote := Response 503 Malformed;
     status_file := Unreadable; load_end := 121000000 |}.
Definition world_bad_status : World :=
  {| now := 120000000; remote := Response 503 Malformed;
     status_file := Content (Document sample_root); load_end := 121000000 |}.
Definition world_bad_body : World :=
  {| now := 120000000; remote := Response 200 Malformed;
     status_file := Content (Document sample_root); load_end := 121000000 |}.
Definition world_no_connection : World :=
  {| now := 120000000; remote := NoConnection;
     status_file := Content (Document sample_root); load_end := 121000000 |}.
(** Thirty seconds after time 0. *)
Definition world_soon : World :=
  {| now := 30000000; remote := Response 200 (Document sample_root);
     status_file := Content (Document sample_root); load_end := 31000000 |}.

Definition sample_service : BusService :=
  {| service_id := "20240115-M------"; service_trips := ∅;
     valid_from := Date 2024 1 15;
     weekdays := [true; false; false; false; false; false; false] |}.

(** Every service and every trip registered in [c] is still registered
    in [c']. *)
Definition keeps_registered (c c' : Catalog) : Prop :=
  dom (all_trips c) ⊆ dom (all_trips c')
  /\ dom (all_services c) ⊆ dom (all_services c').

(** *** Notions for the catalog invariants *)

(** The catalog is consistent: every object is registered under its own
    id, a registered service is the decoding of its code, a route lists
    registered services only, and a service holds its trips under their
    own ids, which are registered trip ids. *)
Definition catalog_wf (c : Catalog) : Prop :=
  (forall k t, all_trips c !! k = Some t -> trip_id t = k)
  /\ (forall k s, all_services c !! k = Some s ->
        service_id s = k
        /\ decode_valid_from k = Ok (valid_from s)
        /\ weekdays s = decode_weekdays k)
  /\ (forall k r, all_routes c !! k = Some r ->
        route_id r = k /\ route_services r ⊆ dom (all_services c))
  /\ (forall k s tid t, all_services c !! k = Some s ->
        service_trips s !! tid = Some t ->
        trip_id t = tid /\ tid ∈ dom (all_trips c)).

(** The catalog [c'] has everything [c] has: the keys of the three
    registries, the services of every route and the trip ids of every
    service. *)
Definition catalog_grows (c c' : Catalog) : Prop :=
  dom (all_trips c) ⊆ dom (all_trips c')
  /\ (forall k s, all_services c !! k = Some s ->
        exists s', all_services c' !! k = Some s'
                   /\ dom (service_trips s) ⊆ dom (service_trips s'))
  /\ (forall k r, all_routes c !! k = Some r ->
        exists r', all_routes c' !! k = Some r'
                   /\ route_services r ⊆ route_services r').

(** The route id, the service code and the trip id of a stripped row, and
    of a line of the file. *)
Definition fields (row : string) : option (string * string * string) :=
  match Str.split ","%char row with
  | [f0; f1; f2; _; _; _; _; _] =>
      rid ← Str.split "."%char f0 !! 1%nat; Some (rid, f1, f2)
  | _ => None
  end.

Definition row_fields (line : string) : option (string * string * string) :=
  fields (Str.strip line).

(** The row left its marks: its route is registered and lists its
    service, its service is registered and holds its trip id, and its
    trip id is registered. *)
Definition row_registered (rid sid tid : string) (c : Catalog) : Prop :=
  exists r s,
    all_routes c !! rid = Some r /\ sid ∈ route_services r
    /\ all_services c !! sid = Some s /\ tid ∈ dom (service_trips s)
    /\ tid ∈ dom (all_trips c).

(** *** Notions for the stop directory *)

(** Every stop is registered under its own id and has its coordinates
    in range. *)
Definition stops_wf (stops : gmap string BusStop) : Prop :=
  forall k s, stops !! k = Some s ->
    stop_id s = k
    /\ lat_in_range (stop_location s).1 = true
    /\ lon_in_range (stop_location s).2 = true.

(** The stop id of a line of stops.txt: its first field, stripped. *)
Definition stop_key (line : string) : string :=
  match Str.split ","%char (Str.strip line) with
  | f0 :: _ => Str.strip f0
  | [] => EmptyString
  end.

(** The trip id of a line of trips.txt: its third field. *)
Definition trip_key (line : string) : string :=
  match Str.split ","%char (Str.strip line) with
  | _ :: _ :: f2 :: _ => f2
  | _ => EmptyString
  end.

(** *** Notions for the fleet state *)

(** Every sighting of the mapping is filed under its own route id and
    has its coordinates in range. *)
Definition snapshot_wf (m : gmap (option string) (list Bus)) : Prop :=
  forall k l b, m !! k = Some l -> b ∈ l ->
    bus_route_id b = k
    /\ lat_in_range (bus_location b).1 = true
    /\ lon_in_range (bus_location b).2 = true.

Definition state_snapshot_wf (st : BusState) : Prop :=
  forall m, all_buses st = Some m -> snapshot_wf m.

(** The sightings of a route among [buses], in their order. *)
Definition on_route (k : option string) (buses : list Bus) : list Bus :=
  filter (fun b => bus_route_id b = k) buses.

(** *** The effect of a row, as a function

    A data row that loads is read as its route id, its service code and
    its trip; on each registry it acts as one insertion. *)
Definition parsed (row : string) : option (string * string * BusTrip) :=
  match Str.split ","%char row with
  | [f0; f1; f2; f3; f4; f5; f6; _] =>
      rid ← Str.split "."%char f0 !! 1%nat;
      Some (rid, f1, {| trip_id := f2; headsign := f3; short_name := f4;
                        direction := f5; block := f6 |})
  | _ => None
  end.

Definition data_rows (lines : list string) : list (string * string * BusTrip) :=
  omap (fun l => parsed (Str.strip l)) lines.

(** The service a code decodes to, before any trip is attached. *)
Definition fresh_service (sid : string) : BusService :=
  {| service_id := sid; service_trips := ∅;
     valid_from := match decode_valid_from sid with
                   | Ok vf => vf
                   | Raise _ => Date 1 1 1
                   end;
     weekdays := decode_weekdays sid |}.

Definition with_trips (ts : gmap string BusTrip) (s : BusService) : BusService :=
  {| service_id := service_id s; service_trips := ts;
     valid_from := valid_from s; weekdays := weekdays s |}.

Definition with_service (sid : string) (r : BusRoute) : BusRoute :=
  {| route_id := route_id r; route_services := {[sid]} ∪ route_services r |}.

Definition step_trips (p : string * string * BusTrip) (m : gmap string BusTrip)
  : gmap string BusTrip :=
  <[trip_id p.2 := p.2]> m.

Definition step_services (p : string * string * BusTrip) (m : gmap string BusService)
  : gmap string BusService :=
  let s := default (fresh_service p.1.2) (m !! p.1.2) in
  <[p.1.2 := with_trips (<[trip_id p.2 := p.2]> (service_trips s)) s]> m.

Definition step_routes (p : string * string * BusTrip) (m : gmap string BusRoute)
  : gmap string BusRoute :=
  <[p.1.1 := with_service p.1.2
               (default {| route_id := p.1.1; route_services := ∅ |} (m !! p.1.1))]> m.

(** The same insertions, seen at one key. *)
Definition trip_at (k : string) (o : option BusTrip) (p : string * string * BusTrip)
  : option BusTrip :=
  if decide (trip_id p.2 = k) then Some p.2 else o.

Definition service_at (k : string) (o : option BusService)
  (p : string * string * BusTrip) : option BusService :=
  if decide (p.1.2 = k) then
    let s := default (fresh_service k) o in
    Some (with_trips (<[trip_id p.2 := p.2]> (service_trips s)) s)
  else o.

(** *** More samples *)

Definition trips_sample_no_dot : list string :=
  [trips_header; "ST17,20240115-M------,t1,Hlemmur,17,0,b1,s1"].
Definition trips_sample_bad_code : list string :=
  [trips_header; "ST.17,2024011X-M------,t1,Hlemmur,17,0,b1,s1"].
Definition stops_sample : list string :=
  [stops_header; " 90000295 , Hlemmur ,64.5,-21.75,0"].
Definition stops_sample_far : list string :=
  [stops_header; "90000295,Hlemmur,270.0,-21.75,0"].

(** A record without a latitude, and a document that holds it. *)
Definition sample_bad_element : Element :=
  Elem "bus" (list_to_map [("lon", "-21.75"); ("head", "90.0");
                           ("route", "17"); ("code", "6")]) [].
Definition sample_bad_root : Element :=
  Elem "buses" ∅ [sample_bus_element; sample_bad_element; sample_bus_element].

Definition world_remote_ok : World :=
  {| now := 120000000; remote := Response 200 (Document sample_root);
     status_file := Unreadable; load_end := 121000000 |}.
Definition world_bad_record : World :=
  {| now := 120000000; remote := Response 200 (Document sample_bad_root);
     status_file := Unreadable; load_end := 121000000 |}.

(** * Properties *)

(** ** Strings and [int] *)

Module StrFacts.





Lemma length_to_list (s : string) : length (Str.to_list s) = String.length s.
Proof. induction s; simpl; congruence. Qed.

Lemma to_list_app (a b : string) :
  Str.to_list (a +:+ b) = Str.to_list a ++ Str.to_list b.
Proof. induction a; simpl; [reflexivity | unfold Str.to_list in *; simpl; congruence]. Qed.

Lemma substring_length (n m : nat) (s : string) :
  String.length (String.substring n m s) = Nat.min m (String.length s - n).
Proof.
  revert n m. induction s as [|c s IH]; intros [|n] [|m]; simpl; try reflexivity.
  - now rewrite IH, Nat.sub_0_r.
  - apply IH.
  - apply IH.
Qed.







End StrFacts.

Module PyIntFacts.
Import PyInt PyIntSpec.








End PyIntFacts.

(** ** Services: activation and decoding *)

Lemma weekday_lt_7 (d : date) : (weekday d < 7)%nat.
Proof.
  unfold weekday.
  pose proof (Z.mod_pos_bound (toordinal d + 6) 7 ltac:(lia)). lia.
Qed.

Lemma date_lt_not_le (x y : date) : PyDate.lt x y = true -> PyDate.le y x = false.
Proof. unfold PyDate.lt. now destruct (PyDate.le y x). Qed.

(** C5.  A service is active on a date exactly when the date is not
    before its start date and the entry of its weekday list for the
    weekday of the date (Monday first) is true; before the start date the
    answer is false, whatever the weekday list says. *)
Theorem is_active_on_date_iff (s : BusService) (d : date) :
  (is_active_on_date s d = Ok true <->
     PyDate.le (valid_from s) d = true /\ weekdays s !! weekday d = Some true)
  /\ (PyDate.lt d (valid_from s) = true -> is_active_on_date s d = Ok false).
Proof.
  unfold is_active_on_date. split.
  - destruct (PyDate.le (valid_from s) d).
    + destruct (weekdays s !! weekday d) as [[|]|]; split; intros H;
        first [split; congruence | destruct H; congruence | congruence].
    + split; [discriminate | intros [? _]; discriminate].
  - intros H. now rewrite (date_lt_not_le _ _ H).
Qed.

Example monday_2024_01_15 : weekday (Date 2024 1 15) = 0%nat.
Proof. reflexivity. Qed.

Example sunday_2024_01_21 : weekday (Date 2024 1 21) = 6%nat.
Proof. reflexivity. Qed.

Lemma decode_weekdays_length (sid : string) :
  length (decode_weekdays sid) = Nat.min 7 (String.length sid - 9).
Proof.
  unfold decode_weekdays, Str.slice.
  rewrite length_map, StrFacts.length_to_list, StrFacts.substring_length.
  reflexivity.
Qed.

(** A service built from a code of at least 16 characters answers for
    every date. *)
Lemma is_active_on_date_total (s : BusService) (d : date) :
  length (weekdays s) = 7%nat -> exists b, is_active_on_date s d = Ok b.
Proof.
  intros H. unfold is_active_on_date.
  destruct (PyDate.le (valid_from s) d); [|eauto].
  destruct (lookup_lt_is_Some_2 (weekdays s) (weekday d)) as [b Hb].
  { rewrite H. apply weekday_lt_7. }
  rewrite Hb. eauto.
Qed.

Section Decode.
Import PyInt PyIntSpec.

Variables yyyy mm dd mask tail : string.
Variable sep : ascii.
Hypothesis Hy : String.length yyyy = 4%nat.
Hypothesis Hm : String.length mm = 2%nat.
Hypothesis Hd : String.length dd = 2%nat.
Hypothesis Hk : String.length mask = 7%nat.

Let sid : string := yyyy +:+ mm +:+ dd +:+ String sep (mask +:+ tail).







End Decode.

Lemma BusService_get_new (sid : string) (c : Catalog) :
  all_services c !! sid = None ->
  BusService_get sid c =
    match decode_valid_from sid with
    | Ok vf =>
        let s := {| service_id := sid; service_trips := ∅; valid_from := vf;
                    weekdays := decode_weekdays sid |} in
        (set_services <[sid := s]> c, Ok s)
    | Raise e => (c, Raise e)
    end.
Proof.
  intros H. unfold BusService_get. rewrite H.
  unfold BusService_init, bind, lift, modify, ret.
  destruct (decode_valid_from sid); reflexivity.
Qed.

Lemma decode_valid_from_error (sid : string) (e : exn) :
  decode_valid_from sid = Raise e -> e = ValueError.
Proof.
  unfold decode_valid_from, PyInt.int, result_bind, PyDate.make.
  destruct (PyInt.parse (Str.slice 0 4 sid)) as [y|]; [|congruence].
  destruct (PyInt.parse (Str.slice 4 6 sid)) as [m|]; [|congruence].
  destruct (PyInt.parse (Str.slice 6 8 sid)) as [d|]; [|congruence].
  destruct (PyDate.valid y m d); congruence.
Qed.



(** ** The monad *)

Lemma bind_assoc {S A B C} (m : M S A) (k : A -> M S B) (h : B -> M S C) (s : S) :
  bind (bind m k) h s = bind m (fun a => bind (k a) h) s.
Proof. unfold bind. destruct (m s) as [s' [a|e]]; reflexivity. Qed.

Lemma bind_raise {S A B} (m : M S A) (k : A -> M S B) (s s' : S) (e : exn) :
  m s = (s', Raise e) -> bind m k s = (s', Raise e).
Proof. unfold bind. now intros ->. Qed.

Lemma bind_ok {S A B} (m : M S A) (k : A -> M S B) (s s' : S) (a : A) :
  m s = (s', Ok a) -> bind m k s = k a s'.
Proof. unfold bind. now intros ->. Qed.

(** ** Loading the catalog *)

Lemma trips_rows_cons (line : string) (rest : list string) (c : Catalog) :
  trips_rows (line :: rest) c =
    if decide (Str.strip line = EmptyString) then trips_rows rest c
    else bind (trips_row (Str.strip line)) (fun _ => trips_rows rest) c.
Proof.
  cbn [trips_rows]. destruct (Str.strip line); [reflexivity|].
  destruct (decide _) as [E|_]; [discriminate E | reflexivity].
Qed.

Lemma trips_rows_app (l1 l2 : list string) (c : Catalog) :
  trips_rows (l1 ++ l2) c = bind (trips_rows l1) (fun _ => trips_rows l2) c.
Proof.
  revert c. induction l1 as [|line l1 IH]; intros c; [reflexivity|].
  rewrite <- app_comm_cons. unfold bind at 1. rewrite !trips_rows_cons.
  destruct (decide _); [now rewrite IH|].
  unfold bind at 1 2.
  destruct (trips_row (Str.strip line) c) as [c' [[]|e]]; [now rewrite IH | reflexivity].
Qed.

Lemma trips_row_wrong_count (row : string) (c : Catalog) :
  length (Str.split ","%char row) <> 8%nat ->
  trips_row row c = (c, Raise AssertionError).
Proof.
  unfold trips_row. intros H.
  destruct (Str.split ","%char row) as [|? [|? [|? [|? [|? [|? [|? [|? [|? ?]]]]]]]]];
    try reflexivity.
  now contradiction H.
Qed.

Lemma trips_rows_wrong_count (bad : string) (post : list string) (c : Catalog) :
  wrong_field_count 8 bad ->
  trips_rows (bad :: post) c = (c, Raise AssertionError).
Proof.
  intros [Hne Hlen]. rewrite trips_rows_cons.
  destruct (decide _); [contradiction|].
  apply bind_raise. now apply trips_row_wrong_count.
Qed.

Lemma trips_rows_fail (lines : list string) (bad : string) (c : Catalog) :
  bad ∈ lines -> wrong_field_count 8 bad ->
  is_ok (snd (trips_rows lines c)) = false.
Proof.
  intros Hin Hbad. revert c.
  induction lines as [|line lines IH]; intros c; [inversion Hin|].
  apply elem_of_cons in Hin as [<-|Hin].
  - now rewrite trips_rows_wrong_count.
  - rewrite trips_rows_cons. destruct (decide _); [now apply IH|].
    unfold bind. destruct (trips_row (Str.strip line) c) as [c' [[]|e]];
      [now apply IH | reflexivity].
Qed.

Section Stops.
Variable float_of_string : string -> option float.

Lemma stops_rows_cons (line : string) (rest : list string) (st : gmap string BusStop) :
  stops_rows float_of_string (line :: rest) st =
    if decide (Str.strip line = EmptyString) then stops_rows float_of_string rest st
    else bind (stops_row float_of_string (Str.strip line))
              (fun _ => stops_rows float_of_string rest) st.
Proof.
  cbn [stops_rows]. destruct (Str.strip line); [reflexivity|].
  destruct (decide _) as [E|_]; [discriminate E | reflexivity].
Qed.

Lemma stops_rows_app (l1 l2 : list string) (st : gmap string BusStop) :
  stops_rows float_of_string (l1 ++ l2) st
  = bind (stops_rows float_of_string l1) (fun _ => stops_rows float_of_string l2) st.
Proof.
  revert st. induction l1 as [|line l1 IH]; intros st; [reflexivity|].
  rewrite <- app_comm_cons. unfold bind at 1. rewrite !stops_rows_cons.
  destruct (decide _); [now rewrite IH|].
  unfold bind at 1 2.
  destruct (stops_row float_of_string (Str.strip line) st) as [st' [[]|e]];
    [now rewrite IH | reflexivity].
Qed.

Lemma stops_row_wrong_count (row : string) (st : gmap string BusStop) :
  length (Str.split ","%char row) <> 5%nat ->
  stops_row float_of_string row st = (st, Raise AssertionError).
Proof.
  unfold stops_row. intros H.
  destruct (Str.split ","%char row) as [|? [|? [|? [|? [|? [|? ?]]]]]];
    try reflexivity.
  now contradiction H.
Qed.

Lemma stops_rows_wrong_count (bad : string) (post : list string)
  (st : gmap string BusStop) :
  wrong_field_count 5 bad ->
  stops_rows float_of_string (bad :: post) st = (st, Raise AssertionError).
Proof.
  intros [Hne Hlen]. rewrite stops_rows_cons.
  destruct (decide _); [contradiction|].
  apply bind_raise. now apply stops_row_wrong_count.
Qed.

Lemma stops_rows_fail (lines : list string) (bad : string) (st : gmap string BusStop) :
  bad ∈ lines -> wrong_field_count 5 bad ->
  is_ok (snd (stops_rows float_of_string lines st)) = false.
Proof.
  intros Hin Hbad. revert st.
  induction lines as [|line lines IH]; intros st; [inversion Hin|].
  apply elem_of_cons in Hin as [<-|Hin].
  - now rewrite stops_rows_wrong_count.
  - rewrite stops_rows_cons. destruct (decide _); [now apply IH|].
    unfold bind.
    destruct (stops_row float_of_string (Str.strip line) st) as [st' [[]|e]];
      [now apply IH | reflexivity].
Qed.

End Stops.

(** C7, as the code has it.  A data row with the wrong number of fields
    makes the load fail: [BusRoute.initialize] and [BusStop.initialize]
    raise, and when the rows before the first such row load, the exception
    is the [AssertionError] of that row and the registries are left as
    those rows made them: nothing is rolled back. *)
Theorem initialize_wrong_field_count :
  (forall (lines : list string) (bad : string) (c : Catalog),
      bad ∈ drop 1 lines -> wrong_field_count 8 bad ->
      is_ok (snd (BusRoute_initialize (Some lines) c)) = false)
  /\ (forall (hdr bad : string) (pre post : list string) (c c1 : Catalog),
         wrong_field_count 8 bad ->
         trips_rows pre (set_routes (fun _ => ∅) c) = (c1, Ok tt) ->
         BusRoute_initialize (Some (hdr :: pre ++ bad :: post)) c
         = (c1, Raise AssertionError))
  /\ (forall (float_of_string : string -> option float)
             (lines : list string) (bad : string) (st : gmap string BusStop),
         bad ∈ drop 1 lines -> wrong_field_count 5 bad ->
         is_ok (snd (BusStop_initialize float_of_string (Some lines) st)) = false)
  /\ (forall (float_of_string : string -> option float)
             (hdr bad : string) (pre post : list string) (st st1 : gmap string BusStop),
         wrong_field_count 5 bad ->
         stops_rows float_of_string pre st = (st1, Ok tt) ->
         BusStop_initialize float_of_string (Some (hdr :: pre ++ bad :: post)) st
         = (st1, Raise AssertionError)).
Proof.
  repeat split.
  - intros lines bad c Hin Hbad. unfold BusRoute_initialize, bind, modify.
    now apply trips_rows_fail with bad.
  - intros hdr bad pre post c c1 Hbad Hpre.
    unfold BusRoute_initialize.
    rewrite (bind_ok _ _ _ (set_routes (fun _ => ∅) c) tt) by reflexivity.
    change (drop 1 (hdr :: pre ++ bad :: post)) with (pre ++ bad :: post).
    rewrite trips_rows_app. rewrite (bind_ok _ _ _ _ _ Hpre).
    now apply trips_rows_wrong_count.
  - intros fos lines bad st Hin Hbad. unfold BusStop_initialize.
    now apply stops_rows_fail with bad.
  - intros fos hdr bad pre post st st1 Hbad Hpre.
    unfold BusStop_initialize.
    change (drop 1 (hdr :: pre ++ bad :: post)) with (pre ++ bad :: post).
    rewrite stops_rows_app. rewrite (bind_ok _ _ _ _ _ Hpre).
    now apply stops_rows_wrong_count.
Qed.



Lemma initialize_wrong_field_count_witness :
  BusRoute_initialize (Some trips_sample_short_row) empty_catalog
  = (fst (BusRoute_initialize (Some trips_sample_a) empty_catalog),
     Raise AssertionError).
Proof.
  apply (proj1 (proj2 initialize_wrong_field_count)
           trips_header "ST.18,20240301-MTWTF--,t2,Mjodd,18,1,b2"
           ["ST.17,20240115-M------,t1,Hlemmur,17,0,b1,s1"] [] empty_catalog).
  - split; vm_compute; discriminate.
  - vm_compute. reflexivity.
Defined.

(** A load that fails on its second data row leaves the route, the
    service and the trip of the first one registered. *)
Lemma initialize_leaves_partial_catalog :
  let r := BusRoute_initialize (Some trips_sample_short_row) empty_catalog in
  snd r = Raise AssertionError
  /\ all_trips (fst r) !! "t1" = Some trip_t1
  /\ route_id <$> all_routes (fst r) !! "17" = Some "17"
  /\ valid_from <$> all_services (fst r) !! "20240115-M------" = Some (Date 2024 1 15).
Proof. cbv zeta. repeat apply conj; vm_compute; reflexivity. Qed.

(** C8: what the code does on a second load.  After loading one source
    and then another, the route registry holds the routes of the second
    source only, and the service and trip registries still hold the
    entries of the first. *)
Theorem reload_keeps_services_and_trips :
  let c1 := fst (BusRoute_initialize (Some trips_sample_a) empty_catalog) in
  let r := BusRoute_initialize (Some trips_sample_b) c1 in
  snd r = Ok tt
  /\ all_routes (fst r) !! "17" = None
  /\ route_id <$> all_routes (fst r) !! "18" = Some "18"
  /\ all_trips (fst r) !! "t1" = Some trip_t1
  /\ all_trips (fst r) !! "t2" = Some trip_t2
  /\ valid_from <$> all_services (fst r) !! "20240115-M------" = Some (Date 2024 1 15)
  /\ valid_from <$> all_services (fst r) !! "20240301-MTWTF--" = Some (Date 2024 3 1).
Proof. cbv zeta. repeat apply conj; vm_compute; reflexivity. Qed.

(** ** Loading twice *)

Lemma keeps_registered_refl (c : Catalog) : keeps_registered c c.
Proof. split; reflexivity. Qed.

Lemma keeps_registered_trans (c1 c2 c3 : Catalog) :
  keeps_registered c1 c2 -> keeps_registered c2 c3 -> keeps_registered c1 c3.
Proof. intros [? ?] [? ?]. split; etrans; eassumption. Qed.

Lemma bind_keeps {A B} (m : M Catalog A) (k : A -> M Catalog B) :
  (forall c, keeps_registered c (m c).1) ->
  (forall a c, keeps_registered c (k a c).1) ->
  forall c, keeps_registered c (bind m k c).1.
Proof.
  intros Hm Hk c. unfold bind. specialize (Hm c).
  destruct (m c) as [c' [a|e]]; [|exact Hm].
  eapply keeps_registered_trans; [exact Hm | apply Hk].
Qed.

Lemma BusTrip_init_keeps (t : BusTrip) (c : Catalog) :
  keeps_registered c (BusTrip_init t c).1.
Proof.
  split; cbn; [|reflexivity]. rewrite dom_insert_L. set_solver.
Qed.

Lemma BusService_get_keeps (sid : string) (c : Catalog) :
  keeps_registered c (BusService_get sid c).1.
Proof.
  unfold BusService_get. destruct (all_services c !! sid); [apply keeps_registered_refl|].
  unfold BusService_init, bind, lift, modify, ret.
  destruct (decode_valid_from sid); [|apply keeps_registered_refl].
  split; cbn; [reflexivity|]. rewrite dom_insert_L. set_solver.
Qed.

Lemma BusRoute_get_keeps (rid : string) (c : Catalog) :
  keeps_registered c (BusRoute_get rid c).1.
Proof.
  unfold BusRoute_get. destruct (all_routes c !! rid); split; reflexivity.
Qed.

Lemma add_service_keeps (rid sid : string) (c : Catalog) :
  keeps_registered c (add_service rid sid c).1.
Proof. split; reflexivity. Qed.

Lemma add_trip_keeps (sid : string) (t : BusTrip) (c : Catalog) :
  keeps_registered c (add_trip sid t c).1.
Proof. split; cbn; [reflexivity|]. now rewrite dom_alter_L. Qed.

Lemma trips_row_keeps (row : string) (c : Catalog) :
  keeps_registered c (trips_row row c).1.
Proof.
  unfold trips_row.
  destruct (Str.split ","%char row) as [|f0 [|f1 [|f2 [|f3 [|f4 [|f5 [|f6 [|f7 [|? ?]]]]]]]]];
    try apply keeps_registered_refl.
  destruct (Str.split "."%char f0 !! 1%nat) as [rid|]; [|apply keeps_registered_refl].
  revert c. apply bind_keeps; [apply BusRoute_get_keeps|]. intros route.
  apply bind_keeps; [apply BusService_get_keeps|]. intros service.
  apply bind_keeps; [apply add_service_keeps|]. intros _.
  apply bind_keeps; [apply BusTrip_init_keeps|]. intros trip.
  apply add_trip_keeps.
Qed.

Lemma trips_rows_keeps (lines : list string) (c : Catalog) :
  keeps_registered c (trips_rows lines c).1.
Proof.
  revert c. induction lines as [|line lines IH]; intros c;
    [apply keeps_registered_refl|].
  rewrite trips_rows_cons. destruct (decide _); [apply IH|].
  revert c. apply bind_keeps; [apply trips_row_keeps | intros _; apply IH].
Qed.

(** A load forgets no service and no trip, whatever the source. *)
Lemma initialize_keeps_registered (file : option (list string)) (c : Catalog) :
  keeps_registered c (BusRoute_initialize file c).1.
Proof.
  unfold BusRoute_initialize. revert c.
  apply bind_keeps; [intros c; split; reflexivity|]. intros _ c.
  destruct file as [lines|]; [apply trips_rows_keeps | apply keeps_registered_refl].
Qed.

(** A load starts from an empty route registry: the routes registered
    before it have no part in what it does. *)
Lemma initialize_discards_routes (file : option (list string)) (c : Catalog)
  (routes : gmap string BusRoute) :
  BusRoute_initialize file (set_routes (fun _ => routes) c)
  = BusRoute_initialize file c.
Proof. reflexivity. Qed.

(** ** The fleet state cache *)

Section Cache.
(** [fos] is [float] on strings. *)
Variable fos : string -> option float.

(** *** The loop over the records, against the direct parse *)

Lemma Bus_init_spec (b : Bus) (st : BusState) (m : gmap (option string) (list Bus)) :
  all_buses st = Some m ->
  lat_in_range (bus_location b).1 = true ->
  lon_in_range (bus_location b).2 = true ->
  Bus_init b st = (set_all_buses (Some (add_bus b m)) st, Ok tt).
Proof.
  intros Hm Hlat Hlon. unfold Bus_init.
  destruct (bus_location b) as [lat lon]. simpl in Hlat, Hlon.
  rewrite Hlat, Hlon. cbn [negb].
  unfold bind, all_buses_getitem, defaultdict_getitem, modify, add_bus.
  rewrite Hm. destruct (m !! bus_route_id b) as [l|] eqn:El; cbn.
  - reflexivity.
  - unfold set_all_buses. cbn. now rewrite insert_insert_eq.
Qed.

Lemma Bus_init_out_of_range (b : Bus) (st : BusState) :
  lat_in_range (bus_location b).1 && lon_in_range (bus_location b).2 = false ->
  Bus_init b st = (st, Raise AssertionError).
Proof.
  unfold Bus_init. destruct (bus_location b) as [lat lon]. simpl.
  destruct (lat_in_range lat); [|reflexivity].
  destruct (lon_in_range lon); [discriminate|reflexivity].
Qed.

Lemma load_bus_spec (bus : Element) (st : BusState)
  (m : gmap (option string) (list Bus)) :
  all_buses st = Some m ->
  load_bus fos bus st =
    match parse_bus fos bus with
    | Ok b => (set_all_buses (Some (add_bus b m)) st, Ok tt)
    | Raise e => (st, Raise e)
    end.
Proof.
  intros Hm. unfold load_bus, parse_bus, bind, lift, result_bind.
  destruct (py_float fos (elem_get bus "lat")) as [lat|]; [|reflexivity].
  destruct (py_float fos (elem_get bus "lon")) as [lon|]; [|reflexivity].
  destruct (py_float fos (elem_get bus "head")) as [heading|]; [|reflexivity].
  destruct (PyInt.int_opt (elem_get bus "code")) as [code|]; [|reflexivity].
  destruct (lat_in_range lat) eqn:Hlat; cbn [negb].
  2:{ apply Bus_init_out_of_range. cbn. now rewrite Hlat. }
  destruct (lon_in_range lon) eqn:Hlon; cbn [negb].
  2:{ apply Bus_init_out_of_range. cbn. now rewrite Hlat, Hlon. }
  now apply Bus_init_spec.
Qed.

Lemma load_buses_spec (l : list Element) (st : BusState)
  (m : gmap (option string) (list Bus)) :
  all_buses st = Some m ->
  load_buses fos l st =
    (set_all_buses (Some (group_buses fos l m).1) st, (group_buses fos l m).2).
Proof.
  revert st m. induction l as [|bus l IH]; intros st m Hm.
  - cbn. unfold ret, set_all_buses. rewrite <- Hm. now destruct st.
  - cbn [load_buses group_buses]. unfold bind.
    rewrite (load_bus_spec bus st m Hm).
    destruct (parse_bus fos bus) as [b|e].
    + rewrite (IH _ (add_bus b m)) by reflexivity. reflexivity.
    + cbn. unfold set_all_buses. rewrite <- Hm. now destruct st.
Qed.

(** *** The choice of the source *)

Lemma load_state_source (w : World) (st : BusState) :
  Bus_load_state fos w st =
    let st0 := logged (choose_source w).1 (set_all_buses (Some ∅) st) in
    match (choose_source w).2 with
    | Ok root => load_root fos w root st0
    | Raise e => (st0, Raise e)
    end.
Proof.
  unfold Bus_load_state, Bus_fetch_state, Bus_read_state, choose_source,
    bind, modify, log, ret, throw, logged.
  destruct (remote w) as [|sc body]; [reflexivity|].
  destruct (sc =? requests_codes_ok).
  - destruct body; reflexivity.
  - cbn. rewrite <- !app_assoc. cbn.
    destruct (status_file w) as [|[|root]]; reflexivity.
Qed.

Lemma load_root_spec (w : World) (root : Element) (st : BusState)
  (m : gmap (option string) (list Bus)) :
  all_buses st = Some m ->
  load_root fos w root st =
    let g := group_buses fos (findall "bus" root) m in
    match g.2 with
    | Ok _ => (set_timestamp (Some (load_end w)) (set_all_buses (Some g.1) st), Ok tt)
    | Raise e => (set_all_buses (Some g.1) st, Raise e)
    end.
Proof.
  intros Hm. unfold load_root, bind. rewrite (load_buses_spec _ st m Hm). cbn.
  destruct (group_buses fos (findall "bus" root) m).2 as [[]|e]; reflexivity.
Qed.

Lemma refresh_state_stale (w : World) (st : BusState) :
  stale st w = true -> Bus_refresh_state fos w st = Bus_load_state fos w st.
Proof.
  unfold stale, Bus_refresh_state. destruct (timestamp st) as [ts|]; [|reflexivity].
  destruct (now w - ts <? staleness_window); [discriminate | reflexivity].
Qed.

Lemma refresh_state_fresh_id (w : World) (st : BusState) (ts : Z) :
  timestamp st = Some ts -> now w - ts < staleness_window ->
  Bus_refresh_state fos w st = (st, Ok tt).
Proof.
  intros Hts Hlt. unfold Bus_refresh_state. rewrite Hts.
  apply Z.ltb_lt in Hlt. now rewrite Hlt.
Qed.

End Cache.

Section CacheProperties.
Variable fos : string -> option float.

(** *** What a load does, in one equation *)

Lemma load_state_spec (w : World) (st : BusState) :
  Bus_load_state fos w st =
    let st0 := logged (choose_source w).1 (set_all_buses (Some ∅) st) in
    match (choose_source w).2 with
    | Raise e => (st0, Raise e)
    | Ok root =>
        let g := group_buses fos (findall "bus" root) ∅ in
        match g.2 with
        | Ok _ => (set_timestamp (Some (load_end w)) (set_all_buses (Some g.1) st0), Ok tt)
        | Raise e => (set_all_buses (Some g.1) st0, Raise e)
        end
    end.
Proof.
  rewrite load_state_source. cbv zeta.
  destruct (choose_source w).2 as [root|e]; [|reflexivity].
  now rewrite (load_root_spec fos w root _ ∅).
Qed.

Lemma parse_snapshot_group (root : Element) :
  parse_snapshot fos root =
    match (group_buses fos (findall "bus" root) ∅).2 with
    | Ok _ => Ok (group_buses fos (findall "bus" root) ∅).1
    | Raise e => Raise e
    end.
Proof.
  unfold parse_snapshot.
  destruct (group_buses fos (findall "bus" root) ∅) as [m [[]|e]]; reflexivity.
Qed.

Lemma choose_source_bad_status (w : World) (sc : Z) (body : xml_doc) (root : Element) :
  remote w = Response sc body -> sc <> requests_codes_ok ->
  status_file w = Content (Document root) ->
  choose_source w = ([Fetch; Read], Ok root).
Proof.
  intros Hr Hsc Hf. unfold choose_source. rewrite Hr, Hf.
  apply Z.eqb_neq in Hsc. now rewrite Hsc.
Qed.

Lemma choose_source_unavailable (w : World) :
  remote_unavailable (remote w) = true ->
  local_unavailable (status_file w) = true ->
  exists es e, choose_source w = (es, Raise e).
Proof.
  unfold choose_source, remote_unavailable, local_unavailable.
  destruct (remote w) as [|sc [|root]]; [eauto| |].
  - intros _ Hl. destruct (sc =? requests_codes_ok); [eauto|].
    destruct (status_file w) as [|[|?]]; eauto. discriminate.
  - intros Hsc Hl. destruct (sc =? requests_codes_ok); [discriminate|].
    destruct (status_file w) as [|[|?]]; eauto. discriminate.
Qed.

(** *** Exceptions of a refresh *)

Lemma parse_bus_exn (bus : Element) (e : exn) :
  parse_bus fos bus = Raise e -> e <> KeyError.
Proof.
  assert (F : forall x v, py_float fos x = Raise v -> v <> KeyError).
  { intros x v. unfold py_float. destruct x as [s|]; [|congruence].
    destruct (fos s); congruence. }
  assert (I : forall x v, PyInt.int_opt x = Raise v -> v <> KeyError).
  { intros x v. unfold PyInt.int_opt, PyInt.int. destruct x as [s|]; [|congruence].
    destruct (PyInt.parse s); congruence. }
  unfold parse_bus, result_bind.
  destruct (py_float fos (elem_get bus "lat")) as [lat|v] eqn:E1;
    [|intros [= <-]; eapply F, E1].
  destruct (py_float fos (elem_get bus "lon")) as [lon|v] eqn:E2;
    [|intros [= <-]; eapply F, E2].
  destruct (py_float fos (elem_get bus "head")) as [heading|v] eqn:E3;
    [|intros [= <-]; eapply F, E3].
  destruct (PyInt.int_opt (elem_get bus "code")) as [code|v] eqn:E4;
    [|intros [= <-]; eapply I, E4].
  destruct (lat_in_range lat); cbn [negb]; [|congruence].
  destruct (lon_in_range lon); cbn [negb]; congruence.
Qed.

Lemma group_buses_exn (l : list Element) (m : gmap (option string) (list Bus)) (e : exn) :
  (group_buses fos l m).2 = Raise e -> e <> KeyError.
Proof.
  revert m. induction l as [|bus l IH]; intros m; cbn; [discriminate|].
  destruct (parse_bus fos bus) as [b|e'] eqn:E; [apply IH|].
  cbn. intros [= <-]. eapply parse_bus_exn, E.
Qed.

Lemma choose_source_exn (w : World) (e : exn) :
  (choose_source w).2 = Raise e -> e <> KeyError.
Proof.
  unfold choose_source.
  repeat match goal with
         | |- context [match ?x with _ => _ end] => destruct x
         | |- context [if ?x then _ else _] => destruct x
         end; cbn; congruence.
Qed.

Lemma refresh_state_exn (w : World) (st : BusState) (e : exn) :
  (Bus_refresh_state fos w st).2 = Raise e -> e <> KeyError.
Proof.
  assert (L : (Bus_load_state fos w st).2 = Raise e -> e <> KeyError).
  { rewrite load_state_spec. cbv zeta.
    destruct (choose_source w).2 as [root|e'] eqn:Es.
    - destruct (group_buses fos (findall "bus" root) ∅).2 as [[]|e''] eqn:Eg;
        cbn; [discriminate|].
      intros [= <-]. eapply group_buses_exn, Eg.
    - cbn. intros [= <-]. eapply choose_source_exn, Es. }
  unfold Bus_refresh_state. destruct (timestamp st) as [ts|]; [|exact L].
  destruct (now w - ts <? staleness_window); [discriminate | exact L].
Qed.

(** *** Reachable states *)

Lemma wf_initial_state : wf_state initial_state.
Proof. intros [ts H]. discriminate H. Qed.

Lemma refresh_state_wf (w : World) (st : BusState) :
  wf_state st -> wf_state (Bus_refresh_state fos w st).1.
Proof.
  intros Hwf.
  assert (L : wf_state (Bus_load_state fos w st).1).
  { rewrite load_state_spec. cbv zeta.
    destruct (choose_source w).2 as [root|e]; [|intros _; cbn; eauto].
    destruct (group_buses fos (findall "bus" root) ∅).2 as [[]|e];
      intros _; cbn; eauto. }
  unfold Bus_refresh_state. destruct (timestamp st) as [ts|]; [|exact L].
  destruct (now w - ts <? staleness_window); [exact Hwf | exact L].
Qed.

Lemma refresh_state_ok (w : World) (st st' : BusState) :
  wf_state st -> Bus_refresh_state fos w st = (st', Ok tt) ->
  is_Some (timestamp st') /\ is_Some (all_buses st').
Proof.
  intros Hwf H.
  assert (Hts : is_Some (timestamp st')).
  { revert H. unfold Bus_refresh_state.
    assert (L : Bus_load_state fos w st = (st', Ok tt) -> is_Some (timestamp st')).
    { rewrite load_state_spec. cbv zeta.
      destruct (choose_source w).2 as [root|e]; [|discriminate].
      destruct (group_buses fos (findall "bus" root) ∅).2 as [[]|e];
        [|discriminate].
      intros [= <-]. cbn. eauto. }
    destruct (timestamp st) as [ts|] eqn:Ets; [|exact L].
    destruct (now w - ts <? staleness_window); [|exact L].
    intros [= <-]. rewrite Ets. eauto. }
  split; [exact Hts|].
  pose proof (refresh_state_wf w st Hwf) as Hwf'. rewrite H in Hwf'.
  exact (Hwf' Hts).
Qed.

(** *** The properties of the specification *)

(** C1, as the code has it.  When a refresh is due and neither the
    remote endpoint nor the local file gives a document, the refresh
    raises, with or without a previous snapshot; it leaves an empty
    mapping in place of the previous snapshot and the timestamp as it
    was, and [all_buses] and [buses_on_route] raise the same exception. *)
Theorem refresh_fails_without_sources (w : World) (st : BusState) :
  stale st w = true ->
  remote_unavailable (remote w) = true ->
  local_unavailable (status_file w) = true ->
  exists (e : exn) (es : list io_event),
    let st' := {| all_buses := Some ∅; timestamp := timestamp st;
                  io_log := io_log st ++ es |} in
    Bus_refresh_state fos w st = (st', Raise e)
    /\ Bus_all_buses fos w st = (st', Raise e)
    /\ (forall rid, Bus_buses_on_route fos w rid st = (st', Raise e)).
Proof.
  intros Hst Hr Hl.
  destruct (choose_source_unavailable w Hr Hl) as (es & e & Hs).
  exists e, es. cbv zeta.
  assert (H : Bus_refresh_state fos w st
              = ({| all_buses := Some ∅; timestamp := timestamp st;
                    io_log := io_log st ++ es |}, Raise e)).
  { rewrite (refresh_state_stale fos w st Hst), load_state_spec, Hs. reflexivity. }
  split; [exact H|].
  split; [|intros rid]; [unfold Bus_all_buses | unfold Bus_buses_on_route];
    now apply bind_raise.
Qed.

(** C2, as the code has it.  When a refresh is due and the remote
    endpoint answers with a status that is not the success status, the
    local file is read instead: if it parses to a snapshot, [all_buses]
    returns that snapshot, stamps it and raises nothing; if a record of
    it cannot be read, [all_buses] raises what the direct parse raises. *)
Theorem all_buses_falls_back_on_bad_status
  (w : World) (st : BusState) (sc : Z) (body : xml_doc) (root : Element) :
  stale st w = true ->
  remote w = Response sc body ->
  sc <> requests_codes_ok ->
  status_file w = Content (Document root) ->
  match parse_snapshot fos root with
  | Ok m =>
      Bus_all_buses fos w st
      = ({| all_buses := Some m; timestamp := Some (load_end w);
            io_log := io_log st ++ [Fetch; Read] |}, Ok (Some m))
  | Raise e => (Bus_all_buses fos w st).2 = Raise e
  end.
Proof.
  intros Hst Hr Hsc Hf.
  pose proof (choose_source_bad_status w sc body root Hr Hsc Hf) as Hs.
  rewrite parse_snapshot_group. unfold Bus_all_buses, bind.
  rewrite (refresh_state_stale fos w st Hst), load_state_spec, Hs. cbv zeta. cbn [fst snd].
  destruct (group_buses fos (findall "bus" root) ∅) as [m [[]|e]]; reflexivity.
Qed.

(** C3.  When the state has a timestamp less than 60 seconds old at the
    time of the call, [refresh_state] returns with the state as it was:
    no fetch, no read, the same snapshot and timestamp.  [all_buses]
    returns the stored snapshot, [buses_on_route] fetches and reads
    nothing, and a call of [all_buses] that follows another within the
    window returns the same snapshot without any input or output. *)
Theorem refresh_within_window (w : World) (st : BusState) (ts : Z) :
  timestamp st = Some ts ->
  now w - ts < staleness_window ->
  Bus_refresh_state fos w st = (st, Ok tt)
  /\ Bus_all_buses fos w st = (st, Ok (all_buses st))
  /\ (forall rid, let r := Bus_buses_on_route fos w rid st in
                  fetches r.1 = fetches st /\ reads r.1 = reads st
                  /\ timestamp r.1 = timestamp st)
  /\ (forall w0 st0 v, Bus_all_buses fos w0 st0 = (st, Ok v) ->
                       Bus_all_buses fos w st = (st, Ok v)).
Proof.
  intros Hts Hlt.
  pose proof (refresh_state_fresh_id fos w st ts Hts Hlt) as H.
  assert (Hall : Bus_all_buses fos w st = (st, Ok (all_buses st))).
  { unfold Bus_all_buses. now rewrite (bind_ok _ _ _ _ _ H). }
  split; [exact H|]. split; [exact Hall|]. split.
  - intros rid. cbv zeta. unfold Bus_buses_on_route.
    rewrite (bind_ok _ _ _ _ _ H). unfold all_buses_getitem.
    destruct (all_buses st) as [d|]; [|now repeat split].
    destruct (defaultdict_getitem rid d). now repeat split.
  - intros w0 st0 v H0. rewrite Hall. f_equal.
    unfold Bus_all_buses, bind, gets in H0.
    destruct (Bus_refresh_state fos w0 st0) as [s [[]|e]]; [|discriminate].
    now inversion H0.
Qed.

(** C10.  [buses_on_route] never raises a [KeyError]; when the refresh
    succeeds and the snapshot has no entry for the route, it returns the
    empty list and leaves the route in the snapshot with the empty list,
    and a call of [all_buses] within the window returns a mapping that
    has this key. *)
Theorem buses_on_route_inserts_missing_key :
  (forall (w : World) (rid : option string) (st : BusState),
      (Bus_buses_on_route fos w rid st).2 <> Raise KeyError)
  /\ (forall (w : World) (rid : option string) (st st0 : BusState)
             (m : gmap (option string) (list Bus)),
         Bus_refresh_state fos w st = (st0, Ok tt) ->
         all_buses st0 = Some m ->
         m !! rid = None ->
         let st1 := set_all_buses (Some (<[rid := []]> m)) st0 in
         Bus_buses_on_route fos w rid st = (st1, Ok [])
         /\ <[rid := []]> m !! rid = Some []
         /\ (forall (w' : World) (ts : Z),
                timestamp st0 = Some ts ->
                now w' - ts < staleness_window ->
                Bus_all_buses fos w' st1 = (st1, Ok (Some (<[rid := []]> m))))).
Proof.
  split.
  - intros w rid st. unfold Bus_buses_on_route, bind.
    destruct (Bus_refresh_state fos w st) as [s [[]|e]] eqn:E; cbn.
    + unfold all_buses_getitem. destruct (all_buses s) as [d|]; [|discriminate].
      destruct (defaultdict_getitem rid d). discriminate.
    + intros [= ->]. eapply (refresh_state_exn w st KeyError); [|reflexivity].
      now rewrite E.
  - intros w rid st st0 m Href Hm Hrid. cbv zeta. split; [|split].
    + unfold Bus_buses_on_route. rewrite (bind_ok _ _ _ _ _ Href).
      unfold all_buses_getitem, defaultdict_getitem. now rewrite Hm, Hrid.
    + apply lookup_insert_eq.
    + intros w' ts Hts Hlt. unfold Bus_all_buses.
      now rewrite (bind_ok _ _ _ _ _
                     (refresh_state_fresh_id fos w' (set_all_buses _ st0) ts Hts Hlt)).
Qed.

End CacheProperties.

(** ** The properties on the samples *)

(** A Monday after the start date, and a Monday before it. *)
Lemma is_active_on_date_iff_witness :
  is_active_on_date sample_service (Date 2024 1 22) = Ok true
  /\ is_active_on_date sample_service (Date 2024 1 8) = Ok false.
Proof.
  split.
  - apply (proj1 (is_active_on_date_iff sample_service (Date 2024 1 22))).
    split; reflexivity.
  - apply (proj2 (is_active_on_date_iff sample_service (Date 2024 1 8))).
    reflexivity.
Defined.

Example staleness_window_is_60_seconds : staleness_window = 60 * 1000000.
Proof. reflexivity. Qed.

Example parse_sample_root :
  parse_snapshot sample_float_of_string sample_root
  = Ok {[Some "17" := [sample_bus]]}.
Proof. vm_compute. reflexivity. Qed.

Lemma refresh_fails_without_sources_witness :
  exists (e : exn) (es : list io_event),
    let st' := {| all_buses := Some ∅; timestamp := Some 0;
                  io_log := [Fetch] ++ es |} in
    Bus_refresh_state sample_float_of_string world_all_down sample_state = (st', Raise e)
    /\ Bus_all_buses sample_float_of_string world_all_down sample_state = (st', Raise e)
    /\ (forall rid,
           Bus_buses_on_route sample_float_of_string world_all_down rid sample_state
           = (st', Raise e)).
Proof.
  apply (refresh_fails_without_sources sample_float_of_string
           world_all_down sample_state); reflexivity.
Defined.

(** The state holds a snapshot with a bus on route 17; two minutes later
    neither source is available: the call raises, and the snapshot that
    is left is empty. *)
Lemma refresh_failure_empties_snapshot :
  let r := Bus_all_buses sample_float_of_string world_all_down sample_state in
  all_buses sample_state = Some {[Some "17" := [sample_bus]]}
  /\ r.2 = Raise OSError
  /\ all_buses r.1 = Some ∅
  /\ timestamp r.1 = Some 0.
Proof. cbv zeta. repeat apply conj; vm_compute; reflexivity. Qed.

Lemma all_buses_falls_back_on_bad_status_witness :
  Bus_all_buses sample_float_of_string world_bad_status sample_state
  = ({| all_buses := Some {[Some "17" := [sample_bus]]};
        timestamp := Some 121000000;
        io_log := [Fetch; Fetch; Read] |},
     Ok (Some {[Some "17" := [sample_bus]]})).
Proof.
  pose proof (all_buses_falls_back_on_bad_status sample_float_of_string
                world_bad_status sample_state 503 Malformed sample_root
                eq_refl eq_refl ltac:(discriminate) eq_refl) as H.
  rewrite parse_sample_root in H. exact H.
Defined.

(** The remote endpoint answers with the success status and a body that
    does not parse, or there is no connection: the local file is not read
    and the exception reaches the caller. *)
Lemma all_buses_raises_on_bad_body_and_no_connection :
  let r := Bus_all_buses sample_float_of_string world_bad_body initial_state in
  let r' := Bus_all_buses sample_float_of_string world_no_connection initial_state in
  r.2 = Raise ParseError /\ io_log r.1 = [Fetch]
  /\ r'.2 = Raise ConnectionError /\ io_log r'.1 = [Fetch]
  /\ parse_snapshot sample_float_of_string sample_root
     = Ok {[Some "17" := [sample_bus]]}.
Proof. cbv zeta. repeat apply conj; vm_compute; reflexivity. Qed.

Lemma refresh_within_window_witness :
  Bus_refresh_state sample_float_of_string world_soon sample_state
  = (sample_state, Ok tt)
  /\ Bus_all_buses sample_float_of_string world_soon sample_state
     = (sample_state, Ok (all_buses sample_state))
  /\ (forall rid,
         let r := Bus_buses_on_route sample_float_of_string world_soon rid sample_state in
         fetches r.1 = fetches sample_state /\ reads r.1 = reads sample_state
         /\ timestamp r.1 = timestamp sample_state)
  /\ (forall w0 st0 v,
         Bus_all_buses sample_float_of_string w0 st0 = (sample_state, Ok v) ->
         Bus_all_buses sample_float_of_string world_soon sample_state
         = (sample_state, Ok v)).
Proof.
  apply (refresh_within_window sample_float_of_string world_soon sample_state 0).
  - reflexivity.
  - reflexivity.
Defined.

(** Route 18 has no sighting in the sample snapshot. *)
Lemma buses_on_route_inserts_missing_key_witness :
  let st1 := set_all_buses (Some (<[Some "18" := []]> {[Some "17" := [sample_bus]]}))
               sample_state in
  Bus_buses_on_route sample_float_of_string world_soon (Some "18") sample_state
  = (st1, Ok [])
  /\ (<[Some "18" := []]> {[Some "17" := [sample_bus]]}
        : gmap (option string) (list Bus)) !! Some "18" = Some []
  /\ (forall (w' : World) (ts : Z),
         timestamp sample_state = Some ts ->
         now w' - ts < staleness_window ->
         Bus_all_buses sample_float_of_string w' st1
         = (st1, Ok (Some (<[Some "18" := []]> {[Some "17" := [sample_bus]]})))).
Proof.
  apply (proj2 (buses_on_route_inserts_missing_key sample_float_of_string)
           world_soon (Some "18") sample_state sample_state
           {[Some "17" := [sample_bus]]}).
  - reflexivity.
  - reflexivity.
  - vm_compute. reflexivity.
Defined.

(** ** Invariants of the catalog *)

#[local] Set Warnings "-clear-no-such-hyp".

Lemma catalog_wf_empty : catalog_wf empty_catalog.
Proof.
  unfold catalog_wf, empty_catalog. cbn [all_trips all_services all_routes].
  split; [|split; [|split]]; intros k x; rewrite lookup_empty; discriminate.
Qed.

Lemma catalog_grows_refl (c : Catalog) : catalog_grows c c.
Proof. repeat split; eauto. Qed.

Lemma catalog_grows_trans (c1 c2 c3 : Catalog) :
  catalog_grows c1 c2 -> catalog_grows c2 c3 -> catalog_grows c1 c3.
Proof.
  intros (T1 & S1 & R1) (T2 & S2 & R2). split; [set_solver|]. split.
  - intros k s Hs. destruct (S1 k s Hs) as (s' & Hs' & ?).
    destruct (S2 k s' Hs') as (s'' & Hs'' & ?). exists s''. split; [done|set_solver].
  - intros k r Hr. destruct (R1 k r Hr) as (r' & Hr' & ?).
    destruct (R2 k r' Hr') as (r'' & Hr'' & ?). exists r''. split; [done|set_solver].
Qed.

(** [BusRoute(route_id)] on an id that is not registered *)
Lemma BusRoute_init_wf (rid : string) (c : Catalog) :
  catalog_wf c ->
  catalog_wf (set_routes <[rid := {| route_id := rid; route_services := ∅ |}]> c).
Proof.
  intros (HT & HS & HR & HST). split; [|split; [|split]]; cbn.
  - exact HT.
  - exact HS.
  - intros k r [[-> <-]|[_ H]]%lookup_insert_Some; [split; [done|set_solver]|].
    now apply HR in H.
  - exact HST.
Qed.

(** [BusRoute.get]: the route is there afterwards. *)
Lemma BusRoute_get_wf (rid : string) (c : Catalog) :
  catalog_wf c ->
  exists route,
    (BusRoute_get rid c).2 = Ok route
    /\ catalog_wf (BusRoute_get rid c).1
    /\ catalog_grows c (BusRoute_get rid c).1
    /\ all_routes (BusRoute_get rid c).1 !! rid = Some route.
Proof.
  intros Hwf. unfold BusRoute_get.
  destruct (all_routes c !! rid) as [r|] eqn:Er.
  - exists r. cbn. auto using catalog_grows_refl.
  - eexists. cbn. split; [reflexivity|]. split; [|split].
    + now apply BusRoute_init_wf.
    + split; [done|]. split; [eauto|]. cbn. intros k r Hr.
      exists r. split; [|done]. rewrite lookup_insert_ne; [done|]. congruence.
    + apply lookup_insert_eq.
Qed.

(** [BusService(service_id)] on a code that decodes *)
Lemma BusService_init_wf (sid : string) (vf : date) (c : Catalog) :
  catalog_wf c -> decode_valid_from sid = Ok vf ->
  catalog_wf (set_services <[sid := {| service_id := sid; service_trips := ∅;
                                        valid_from := vf;
                                        weekdays := decode_weekdays sid |}]> c).
Proof.
  intros (HT & HS & HR & HST) Hd. split; [|split; [|split]]; cbn.
  - exact HT.
  - intros k s [[-> <-]|[_ H]]%lookup_insert_Some; [done|]. now apply HS in H.
  - intros k r H. apply HR in H as [? H]. split; [done|].
    rewrite dom_insert_L. set_solver.
  - intros k s tid t [[-> <-]|[_ H]]%lookup_insert_Some; [|eapply HST; eauto].
    cbn. rewrite lookup_empty. discriminate.
Qed.

(** [BusService.get]: the service is there afterwards, or nothing changed. *)
Lemma BusService_get_wf (sid : string) (c : Catalog) :
  catalog_wf c ->
  match (BusService_get sid c).2 with
  | Ok s =>
      catalog_wf (BusService_get sid c).1
      /\ catalog_grows c (BusService_get sid c).1
      /\ all_services (BusService_get sid c).1 !! sid = Some s
      /\ service_id s = sid
      /\ all_routes (BusService_get sid c).1 = all_routes c
  | Raise e => (BusService_get sid c).1 = c /\ e = ValueError
                /\ all_services c !! sid = None
  end.
Proof.
  intros Hwf. unfold BusService_get.
  destruct (all_services c !! sid) as [s|] eqn:Es.
  - cbn. pose proof Hwf as (_ & HS & _). destruct (HS _ _ Es) as (Hid & _).
    split; [exact Hwf|]. split; [apply catalog_grows_refl|].
    split; [exact Es|]. split; [exact Hid|reflexivity].
  - unfold BusService_init, bind, lift, modify, ret.
    destruct (decode_valid_from sid) as [vf|e] eqn:Ed; cbn.
    2:{ split; [done|]. split; [|done]. eapply decode_valid_from_error, Ed. }
    split; [|split; [|split; [|split]]].
    + now apply BusService_init_wf.
    + split; [done|]. split; [|eauto]. cbn. intros k s Hs.
      exists s. split; [|done]. rewrite lookup_insert_ne; [done|]. congruence.
    + apply lookup_insert_eq.
    + reflexivity.
    + reflexivity.
Qed.

(** [route.add_service(service)] for a registered service *)
Lemma add_service_wf (rid sid : string) (c : Catalog) :
  catalog_wf c -> sid ∈ dom (all_services c) ->
  catalog_wf (add_service rid sid c).1
  /\ catalog_grows c (add_service rid sid c).1
  /\ all_services (add_service rid sid c).1 = all_services c
  /\ (forall r, all_routes c !! rid = Some r ->
        exists r', all_routes (add_service rid sid c).1 !! rid = Some r'
                   /\ sid ∈ route_services r').
Proof.
  intros (HT & HS & HR & HST) Hsid. cbn. split; [|split; [|split]].
  - split; [|split; [|split]]; cbn; try done.
    intros k r [[-> (r0 & Hr & ->)]|[_ H]]%lookup_alter_Some; [|now apply HR in H].
    apply HR in Hr as [? Hr]. cbn. split; [done|set_solver].
  - split; [done|]. split; [eauto|]. cbn. intros k r Hr.
    destruct (decide (rid = k)) as [->|Hne].
    + eexists. rewrite lookup_alter_eq, Hr. cbn. split; [reflexivity|]. cbn. set_solver.
    + exists r. now rewrite lookup_alter_ne.
  - reflexivity.
  - intros r Hr. eexists. rewrite lookup_alter_eq, Hr. cbn.
    split; [reflexivity|]. cbn. set_solver.
Qed.

(** [BusTrip(...)] *)
Lemma BusTrip_init_wf (t : BusTrip) (c : Catalog) :
  catalog_wf c ->
  catalog_wf (BusTrip_init t c).1
  /\ catalog_grows c (BusTrip_init t c).1
  /\ trip_id t ∈ dom (all_trips (BusTrip_init t c).1)
  /\ all_services (BusTrip_init t c).1 = all_services c
  /\ all_routes (BusTrip_init t c).1 = all_routes c.
Proof.
  intros (HT & HS & HR & HST). cbn. split; [|split; [|split]].
  - split; [|split; [|split]]; cbn; try done.
    + intros k x [[<- <-]|[_ H]]%lookup_insert_Some; [done|]. now apply HT in H.
    + intros k s tid x Hs Hx. destruct (HST _ _ _ _ Hs Hx) as [? ?].
      split; [done|]. rewrite dom_insert_L. set_solver.
  - split; [|split; eauto]. cbn. rewrite dom_insert_L. set_solver.
  - rewrite dom_insert_L. set_solver.
  - done.
Qed.

(** [service.add_trip(trip)] for a registered trip *)
Lemma add_trip_wf (sid : string) (t : BusTrip) (c : Catalog) :
  catalog_wf c -> trip_id t ∈ dom (all_trips c) ->
  catalog_wf (add_trip sid t c).1
  /\ catalog_grows c (add_trip sid t c).1
  /\ all_routes (add_trip sid t c).1 = all_routes c
  /\ all_trips (add_trip sid t c).1 = all_trips c
  /\ (forall s, all_services c !! sid = Some s ->
        exists s', all_services (add_trip sid t c).1 !! sid = Some s'
                   /\ trip_id t ∈ dom (service_trips s')).
Proof.
  intros (HT & HS & HR & HST) Ht. cbn. split; [|split; [|split; [|split]]].
  - split; [|split; [|split]]; cbn; try done.
    + intros k s [[-> (s0 & Hs & ->)]|[_ H]]%lookup_alter_Some; [|now apply HS in H].
      cbn. now apply HS in Hs.
    + intros k r H. apply HR in H as [? H]. split; [done|]. now rewrite dom_alter_L.
    + intros k s tid x [[-> (s0 & Hs & ->)]|[_ H]]%lookup_alter_Some; [|eapply HST; eauto].
      cbn. intros [[<- <-]|[_ Hx]]%lookup_insert_Some; [done|]. eapply HST; eauto.
  - split; [done|]. split; [|eauto]. cbn. intros k s Hs.
    destruct (decide (sid = k)) as [->|Hne].
    + eexists. rewrite lookup_alter_eq, Hs. cbn. split; [reflexivity|].
      cbn. rewrite dom_insert_L. set_solver.
    + exists s. now rewrite lookup_alter_ne.
  - reflexivity.
  - reflexivity.
  - intros s Hs. eexists. rewrite lookup_alter_eq, Hs. cbn.
    split; [reflexivity|]. cbn. rewrite dom_insert_L. set_solver.
Qed.

(** A row of eight fields with a dotted route id, step by step. *)
Lemma trips_row_steps (row f0 f1 f2 f3 f4 f5 f6 f7 rid : string) (c : Catalog) :
  Str.split ","%char row = [f0; f1; f2; f3; f4; f5; f6; f7] ->
  Str.split "."%char f0 !! 1%nat = Some rid ->
  trips_row row c =
    let c1 := (BusRoute_get rid c).1 in
    let t := {| trip_id := f2; headsign := f3; short_name := f4;
                direction := f5; block := f6 |} in
    match BusService_get f1 c1 with
    | (c2, Ok service) =>
        ((add_trip f1 t
            (BusTrip_init t (add_service rid (service_id service) c2).1).1).1,
         Ok tt)
    | (c2, Raise e) => (c2, Raise e)
    end.
Proof.
  intros Hrow Hrid. unfold trips_row. rewrite Hrow, Hrid. unfold bind.
  assert (E : exists r, BusRoute_get rid c = ((BusRoute_get rid c).1, Ok r)).
  { unfold BusRoute_get. destruct (all_routes c !! rid); eauto. }
  destruct E as [r ->]. cbn [fst].
  destruct (BusService_get f1 (BusRoute_get rid c).1) as [c2 [service|e]]; reflexivity.
Qed.

(** One row keeps the catalog consistent and removes nothing, whether it
    raises or not; when it returns, it was a row of eight fields with a
    dotted route id, and it left its marks. *)
Lemma trips_row_wf (row : string) (c : Catalog) :
  catalog_wf c ->
  catalog_wf (trips_row row c).1
  /\ catalog_grows c (trips_row row c).1
  /\ ((trips_row row c).2 = Ok tt ->
      exists rid sid tid,
        fields row = Some (rid, sid, tid)
        /\ row_registered rid sid tid (trips_row row c).1).
Proof.
  intros Hwf.
  assert (Hfail : (trips_row row c).1 = c /\ (trips_row row c).2 <> Ok tt ->
                  catalog_wf (trips_row row c).1
                  /\ catalog_grows c (trips_row row c).1
                  /\ ((trips_row row c).2 = Ok tt ->
                      exists rid sid tid,
                        fields row = Some (rid, sid, tid)
                        /\ row_registered rid sid tid (trips_row row c).1)).
  { intros [-> Hne]. split; [exact Hwf|]. split; [apply catalog_grows_refl|].
    intros H. contradiction. }
  destruct (Str.split ","%char row)
    as [|f0 [|f1 [|f2 [|f3 [|f4 [|f5 [|f6 [|f7 [|? ?]]]]]]]]] eqn:Hrow;
    try (apply Hfail; unfold trips_row; rewrite Hrow; split; [reflexivity|discriminate]).
  destruct (Str.split "."%char f0 !! 1%nat) as [rid|] eqn:Hrid;
    [|apply Hfail; unfold trips_row; rewrite Hrow, Hrid; split; [reflexivity|discriminate]].
  clear Hfail. unfold fields. rewrite Hrow, Hrid.
  rewrite (trips_row_steps row f0 f1 f2 f3 f4 f5 f6 f7 rid c Hrow Hrid). cbv zeta.
  destruct (BusRoute_get_wf rid c Hwf) as (route & _ & Hwf1 & Hg1 & Hr1).
  set (c1 := (BusRoute_get rid c).1) in *.
  pose proof (BusService_get_wf f1 c1 Hwf1) as H2.
  destruct (BusService_get f1 c1) as [c2 [service|e]]; cbn in H2.
  2:{ destruct H2 as (-> & _). cbn. split; [exact Hwf1|]. split; [exact Hg1|]. discriminate. }
  destruct H2 as (Hwf2 & Hg2 & Hs2 & Hid & Hroutes2). rewrite Hid. cbn [fst snd].
  destruct (add_service_wf rid f1 c2 Hwf2 (elem_of_dom_2 _ _ _ Hs2))
    as (Hwf3 & Hg3 & Hs3 & Hr3).
  set (c3 := (add_service rid f1 c2).1) in *.
  rewrite Hroutes2 in Hr3. destruct (Hr3 _ Hr1) as (route3 & Hroute3 & Hin3).
  set (t := {| trip_id := f2; headsign := f3; short_name := f4;
               direction := f5; block := f6 |}).
  destruct (BusTrip_init_wf t c3 Hwf3) as (Hwf4 & Hg4 & Ht4 & Hs4 & Hr4).
  set (c4 := (BusTrip_init t c3).1) in *.
  destruct (add_trip_wf f1 t c4 Hwf4 Ht4) as (Hwf5 & Hg5 & Hr5 & Ht5 & Hs5).
  split; [exact Hwf5|]. split.
  { eauto using catalog_grows_trans. }
  intros _. exists rid, f1, f2. split; [reflexivity|].
  rewrite Hs4, Hs3 in Hs5. destruct (Hs5 _ Hs2) as (s5 & Hs5' & Hin5).
  exists route3, s5. rewrite Hr5, Ht5, Hr4.
  repeat split; assumption.
Qed.

Lemma row_registered_grows (rid sid tid : string) (c c' : Catalog) :
  row_registered rid sid tid c -> catalog_grows c c' ->
  row_registered rid sid tid c'.
Proof.
  intros (r & s & Hr & Hin & Hs & Ht & Ha) (GT & GS & GR).
  destruct (GR _ _ Hr) as (r' & Hr' & Hsub).
  destruct (GS _ _ Hs) as (s' & Hs' & Hsub').
  exists r', s'. repeat split; [assumption|set_solver|assumption|set_solver|set_solver].
Qed.

Lemma trips_rows_wf (lines : list string) (c : Catalog) :
  catalog_wf c ->
  catalog_wf (trips_rows lines c).1
  /\ catalog_grows c (trips_rows lines c).1
  /\ ((trips_rows lines c).2 = Ok tt ->
      forall line, line ∈ lines -> Str.strip line <> EmptyString ->
        exists rid sid tid,
          row_fields line = Some (rid, sid, tid)
          /\ row_registered rid sid tid (trips_rows lines c).1).
Proof.
  revert c. induction lines as [|l lines IH]; intros c Hwf.
  { cbn. split; [exact Hwf|]. split; [apply catalog_grows_refl|].
    intros _ line Hin. inversion Hin. }
  rewrite trips_rows_cons. destruct (decide (Str.strip l = EmptyString)) as [Hl|Hl].
  { destruct (IH c Hwf) as (H1 & H2 & H3). split; [exact H1|]. split; [exact H2|].
    intros Hok line [->|Hin]%elem_of_cons Hne; [contradiction|]. now apply H3. }
  unfold bind. destruct (trips_row_wf (Str.strip l) c Hwf) as (W1 & G1 & R1).
  destruct (trips_row (Str.strip l) c) as [c1 [[]|e]]; cbn in W1, G1, R1.
  2:{ cbn. split; [exact W1|]. split; [exact G1|]. discriminate. }
  destruct (IH c1 W1) as (W2 & G2 & R2).
  split; [exact W2|]. split; [eauto using catalog_grows_trans|].
  intros Hok line [->|Hin]%elem_of_cons Hne; [|now apply R2].
  destruct (R1 eq_refl) as (rid & sid & tid & Hf & Hreg).
  exists rid, sid, tid. split; [exact Hf|].
  eapply row_registered_grows; eassumption.
Qed.

Lemma reset_routes_wf (c : Catalog) :
  catalog_wf c -> catalog_wf (set_routes (fun _ => ∅) c).
Proof.
  intros (HT & HS & HR & HST). split; [|split; [|split]]; cbn; done.
Qed.

Lemma initialize_wf_grows (file : option (list string)) (c : Catalog) :
  catalog_wf c ->
  catalog_wf (BusRoute_initialize file c).1
  /\ catalog_grows (set_routes (fun _ => ∅) c) (BusRoute_initialize file c).1.
Proof.
  intros Hwf. unfold BusRoute_initialize.
  rewrite (bind_ok _ _ _ (set_routes (fun _ => ∅) c) tt) by reflexivity.
  destruct file as [lines|].
  - destruct (trips_rows_wf lines _ (reset_routes_wf c Hwf)) as (H1 & H2 & _).
    destruct (trips_rows_wf (drop 1 lines) _ (reset_routes_wf c Hwf)) as (H1' & H2' & _).
    now split.
  - split; [now apply reset_routes_wf | apply catalog_grows_refl].
Qed.

(** X1.  [BusRoute.initialize] keeps the catalog consistent, whatever the
    source and whether it returns or raises: every trip, service and
    route is registered under its own id, every registered service is the
    decoding of its code, every service a route lists is registered, and
    every trip a service holds is held under its id, which is a
    registered trip id. *)
Theorem initialize_keeps_catalog_wf (file : option (list string)) (c : Catalog) :
  catalog_wf c -> catalog_wf (BusRoute_initialize file c).1.
Proof.
  intros Hwf. now apply initialize_wf_grows.
Qed.

(** X2.  After a load that returns, every data row of the source (every
    line after the first that is not blank) has eight fields and a dotted
    route id, and has left its marks: its route is registered and lists
    its service, its service is registered and holds its trip id, and its
    trip id is registered. *)
Theorem initialize_registers_every_row
  (lines : list string) (line : string) (c c' : Catalog) :
  catalog_wf c ->
  BusRoute_initialize (Some lines) c = (c', Ok tt) ->
  line ∈ drop 1 lines ->
  Str.strip line <> EmptyString ->
  exists rid sid tid,
    row_fields line = Some (rid, sid, tid)
    /\ row_registered rid sid tid c'.
Proof.
  intros Hwf Hinit Hin Hne. unfold BusRoute_initialize in Hinit.
  rewrite (bind_ok _ _ _ (set_routes (fun _ => ∅) c) tt) in Hinit by reflexivity.
  destruct (trips_rows_wf (drop 1 lines) _ (reset_routes_wf c Hwf)) as (_ & _ & H).
  rewrite Hinit in H. now apply (H eq_refl).
Qed.

(** X3.  A load never drops a service and never decodes it again: a
    service registered before the load is registered after it, with the
    same start date and weekday list and with at least the trips it had,
    also when the load raises. *)
Theorem initialize_keeps_services
  (file : option (list string)) (c : Catalog) (k : string) (s : BusService) :
  catalog_wf c ->
  all_services c !! k = Some s ->
  exists s',
    all_services (BusRoute_initialize file c).1 !! k = Some s'
    /\ valid_from s' = valid_from s
    /\ weekdays s' = weekdays s
    /\ dom (service_trips s) ⊆ dom (service_trips s').
Proof.
  intros Hwf Hs.
  destruct (initialize_wf_grows file c Hwf) as ((_ & HS' & _) & (_ & GS & _)).
  destruct (GS k s Hs) as (s' & Hs' & Hsub).
  exists s'. split; [exact Hs'|].
  destruct Hwf as (_ & HS & _).
  destruct (HS _ _ Hs) as (_ & Hd & Hw). destruct (HS' _ _ Hs') as (_ & Hd' & Hw').
  repeat split; [congruence|congruence|exact Hsub].
Qed.

(** ** Get or create *)

(** X4.  [BusService.get] gets or creates: when it returns a service,
    the service is registered under the code, the other services, the
    routes and the trips are as before, and a second call returns the
    same service and changes nothing. *)
Theorem BusService_get_idempotent (sid : string) (c c' : Catalog) (s : BusService) :
  BusService_get sid c = (c', Ok s) ->
  all_services c' !! sid = Some s
  /\ BusService_get sid c' = (c', Ok s)
  /\ (forall k, k <> sid -> all_services c' !! k = all_services c !! k)
  /\ all_trips c' = all_trips c
  /\ all_routes c' = all_routes c.
Proof.
  unfold BusService_get at 1.
  destruct (all_services c !! sid) as [s0|] eqn:Es.
  - intros [= <- <-]. unfold BusService_get. rewrite Es. auto.
  - unfold BusService_init, bind, lift, modify, ret.
    destruct (decode_valid_from sid) as [vf|e]; [|discriminate].
    intros [= <- <-]. cbn.
    assert (L : (<[sid := {| service_id := sid; service_trips := ∅; valid_from := vf;
                             weekdays := decode_weekdays sid |}]> (all_services c))
                  !! sid = Some {| service_id := sid; service_trips := ∅;
                                   valid_from := vf; weekdays := decode_weekdays sid |})
      by apply lookup_insert_eq.
    split; [exact L|]. split.
    + unfold BusService_get. cbn. now rewrite L.
    + split; [|done]. intros k Hk. now rewrite lookup_insert_ne.
Qed.

(** X5.  [BusRoute.get] never raises: it returns the route registered
    under the id, or registers and returns a new route without services;
    the services and trips are untouched, and a second call returns the
    same route and changes nothing. *)
Theorem BusRoute_get_total (rid : string) (c : Catalog) :
  exists r,
    BusRoute_get rid c = ((BusRoute_get rid c).1, Ok r)
    /\ all_routes (BusRoute_get rid c).1 !! rid = Some r
    /\ BusRoute_get rid (BusRoute_get rid c).1 = ((BusRoute_get rid c).1, Ok r)
    /\ match all_routes c !! rid with
       | Some r0 => r = r0 /\ (BusRoute_get rid c).1 = c
       | None => r = {| route_id := rid; route_services := ∅ |}
                 /\ (BusRoute_get rid c).1 = set_routes <[rid := r]> c
       end.
Proof.
  unfold BusRoute_get, BusRoute_init, bind, modify, ret.
  destruct (all_routes c !! rid) as [r0|] eqn:Er; cbn.
  - exists r0. rewrite Er. auto.
  - eexists. rewrite lookup_insert_eq. repeat split.
Qed.

(** ** Rows that fail *)

Lemma split_no_separator (sep : ascii) (s : string) :
  sep ∉ Str.to_list s -> Str.split sep s = [s].
Proof.
  induction s as [|c s IH]; [reflexivity|]. cbn. intros Hnot.
  apply not_elem_of_cons in Hnot as [Hne Hnot].
  destruct (Ascii.eqb c sep) eqn:E; [apply Ascii.eqb_eq in E; congruence|].
  now rewrite (IH Hnot).
Qed.

Lemma initialize_after_rows (hdr bad : string) (pre post : list string)
  (c c1 c2 : Catalog) (e : exn) :
  Str.strip bad <> EmptyString ->
  trips_rows pre (set_routes (fun _ => ∅) c) = (c1, Ok tt) ->
  trips_row (Str.strip bad) c1 = (c2, Raise e) ->
  BusRoute_initialize (Some (hdr :: pre ++ bad :: post)) c = (c2, Raise e).
Proof.
  intros Hne Hpre Hbad. unfold BusRoute_initialize.
  rewrite (bind_ok _ _ _ (set_routes (fun _ => ∅) c) tt) by reflexivity.
  change (drop 1 (hdr :: pre ++ bad :: post)) with (pre ++ bad :: post).
  rewrite trips_rows_app, (bind_ok _ _ _ _ _ Hpre), trips_rows_cons.
  destruct (decide _); [contradiction|]. now apply bind_raise.
Qed.

(** X6.  A data row of eight fields whose route id has no dot makes the
    load raise [IndexError]; the row registers nothing: the registries
    are as the rows before it left them. *)
Theorem initialize_route_id_without_dot
  (hdr bad f0 f1 f2 f3 f4 f5 f6 f7 : string) (pre post : list string)
  (c c1 : Catalog) :
  Str.split ","%char (Str.strip bad) = [f0; f1; f2; f3; f4; f5; f6; f7] ->
  "."%char ∉ Str.to_list f0 ->
  trips_rows pre (set_routes (fun _ => ∅) c) = (c1, Ok tt) ->
  BusRoute_initialize (Some (hdr :: pre ++ bad :: post)) c = (c1, Raise IndexError).
Proof.
  intros Hrow Hdot Hpre. apply initialize_after_rows with c1; [|exact Hpre|].
  - intros E. rewrite E in Hrow. discriminate Hrow.
  - unfold trips_row. rewrite Hrow, (split_no_separator _ _ Hdot). reflexivity.
Qed.

(** X7.  A data row of eight fields with a dotted route id and a service
    code that is not registered and does not decode makes the load raise
    [ValueError]; by then the route of the row has been registered (when
    it was not), and neither a service nor a trip has been. *)
Theorem initialize_bad_service_code
  (hdr bad f0 f1 f2 f3 f4 f5 f6 f7 rid : string) (pre post : list string)
  (c c1 : Catalog) (e : exn) :
  Str.split ","%char (Str.strip bad) = [f0; f1; f2; f3; f4; f5; f6; f7] ->
  Str.split "."%char f0 !! 1%nat = Some rid ->
  trips_rows pre (set_routes (fun _ => ∅) c) = (c1, Ok tt) ->
  all_services c1 !! f1 = None ->
  decode_valid_from f1 = Raise e ->
  let c2 := (BusRoute_initialize (Some (hdr :: pre ++ bad :: post)) c).1 in
  BusRoute_initialize (Some (hdr :: pre ++ bad :: post)) c = (c2, Raise ValueError)
  /\ is_Some (all_routes c2 !! rid)
  /\ (forall k, k <> rid -> all_routes c2 !! k = all_routes c1 !! k)
  /\ all_services c2 = all_services c1
  /\ all_trips c2 = all_trips c1.
Proof.
  intros Hrow Hrid Hpre Hnew Hdec.
  assert (Hget : BusService_get f1 (BusRoute_get rid c1).1
                 = ((BusRoute_get rid c1).1, Raise ValueError)).
  { rewrite BusService_get_new.
    - rewrite Hdec. now rewrite (decode_valid_from_error _ _ Hdec).
    - unfold BusRoute_get. destruct (all_routes c1 !! rid); exact Hnew. }
  assert (H : BusRoute_initialize (Some (hdr :: pre ++ bad :: post)) c
              = ((BusRoute_get rid c1).1, Raise ValueError)).
  { apply initialize_after_rows with c1; [|exact Hpre|].
    - intros E. rewrite E in Hrow. discriminate Hrow.
    - rewrite (trips_row_steps _ _ _ _ _ _ _ _ _ _ _ Hrow Hrid). cbv zeta.
      now rewrite Hget. }
  cbv zeta. rewrite H. cbn [fst]. split; [reflexivity|].
  unfold BusRoute_get, BusRoute_init, bind, modify, ret.
  destruct (all_routes c1 !! rid) as [r|] eqn:Er; cbn.
  - rewrite Er. repeat split; eauto.
  - rewrite lookup_insert_eq. repeat split; eauto.
    intros k Hk. now rewrite lookup_insert_ne.
Qed.

(** ** Activation *)

(** X8.  [is_active_on_date] raises nothing but [IndexError], and raises
    it exactly when the date is not before the start date and the weekday
    list has no entry for the weekday of the date; for a service
    registered in a consistent catalog under a code of at least 16
    characters it never raises. *)
Theorem is_active_on_date_raises (s : BusService) (d : date) :
  (forall e, is_active_on_date s d = Raise e -> e = IndexError)
  /\ (is_active_on_date s d = Raise IndexError <->
        PyDate.le (valid_from s) d = true
        /\ (length (weekdays s) <= weekday d)%nat)
  /\ (forall c k, catalog_wf c -> all_services c !! k = Some s ->
        (16 <= String.length k)%nat ->
        exists b, is_active_on_date s d = Ok b).
Proof.
  unfold is_active_on_date. split; [|split].
  - intros e. destruct (PyDate.le (valid_from s) d); [|discriminate].
    destruct (weekdays s !! weekday d); congruence.
  - destruct (PyDate.le (valid_from s) d).
    + destruct (weekdays s !! weekday d) as [b|] eqn:E.
      * split; [discriminate|]. intros [_ Hlen].
        apply lookup_lt_Some in E. lia.
      * split; [|reflexivity]. intros _. split; [reflexivity|].
        now apply lookup_ge_None.
    + split; [discriminate|]. intros [? _]. discriminate.
  - intros c k (_ & HS & _) Hs Hlen.
    destruct (HS _ _ Hs) as (_ & _ & Hw).
    apply is_active_on_date_total. rewrite Hw, decode_weekdays_length. lia.
Qed.

Lemma active_services_fold (c : Catalog) (d : date) (sids : list string) :
  match foldr (fun sid acc =>
                 rest <-? acc;
                 match all_services c !! sid with
                 | Some s => b <-? is_active_on_date s d;
                             Ok (if b then s :: rest else rest)
                 | None => Ok rest
                 end) (Ok []) sids with
  | Ok l =>
      (forall s, s ∈ l <->
         exists sid, sid ∈ sids /\ all_services c !! sid = Some s
                     /\ is_active_on_date s d = Ok true)
      /\ (forall sid s, sid ∈ sids -> all_services c !! sid = Some s ->
            exists b, is_active_on_date s d = Ok b)
  | Raise e =>
      exists sid s, sid ∈ sids /\ all_services c !! sid = Some s
                    /\ is_active_on_date s d = Raise e
  end.
Proof.
  induction sids as [|sid sids IH]; cbn.
  { split.
    - intros s. split; [intros H; inversion H|].
      intros (sid & H & _). inversion H.
    - intros sid s H. inversion H. }
  destruct (foldr _ _ sids) as [rest|e]; cbn.
  2:{ destruct IH as (sid' & s & Hin & Hs & He). exists sid', s.
      split; [now apply list_elem_of_further|]. now split. }
  destruct IH as [IH1 IH2].
  destruct (all_services c !! sid) as [s0|] eqn:Es0; cbn.
  2:{ split.
      - intros s. rewrite IH1. split.
        + intros (k & Hin & Hs & Ha). exists k. split; [now apply list_elem_of_further|now split].
        + intros (k & [->|Hin]%elem_of_cons & Hs & Ha); [congruence|]. eauto.
      - intros k s [->|Hin]%elem_of_cons Hs; [congruence|]. eauto. }
  destruct (is_active_on_date s0 d) as [b|e] eqn:Ea; cbn.
  2:{ exists sid, s0. split; [apply list_elem_of_here|]. now split. }
  split.
  - intros s. destruct b.
    + rewrite elem_of_cons, IH1. split.
      * intros [->|(k & Hin & Hs & Ha)].
        -- exists sid. split; [apply list_elem_of_here|]. now split.
        -- exists k. split; [now apply list_elem_of_further|]. now split.
      * intros (k & [->|Hin]%elem_of_cons & Hs & Ha).
        -- left. congruence.
        -- right. eauto.
    + rewrite IH1. split.
      * intros (k & Hin & Hs & Ha). exists k. split; [now apply list_elem_of_further|now split].
      * intros (k & [->|Hin]%elem_of_cons & Hs & Ha); [|eauto].
        rewrite Es0 in Hs. injection Hs as <-. congruence.
  - intros k s [->|Hin]%elem_of_cons Hs; [|eauto].
    rewrite Es0 in Hs. injection Hs as <-. eauto.
Qed.

(** X9.  [active_services] returns the services of the route that are
    active on the date, and only them; it raises when the activation
    test of one of the services of the route raises, and only then. *)
Theorem active_services_spec (c : Catalog) (r : BusRoute) (d : date) :
  match active_services c r d with
  | Ok l =>
      (forall s, s ∈ l <->
         exists sid, sid ∈ route_services r /\ all_services c !! sid = Some s
                     /\ is_active_on_date s d = Ok true)
      /\ (forall sid s, sid ∈ route_services r -> all_services c !! sid = Some s ->
            exists b, is_active_on_date s d = Ok b)
  | Raise e =>
      e = IndexError
      /\ exists sid s, sid ∈ route_services r /\ all_services c !! sid = Some s
                       /\ is_active_on_date s d = Raise IndexError
  end.
Proof.
  unfold active_services.
  pose proof (active_services_fold c d (elements (route_services r))) as H.
  destruct (foldr _ _ (elements (route_services r))) as [l|e].
  - destruct H as [H1 H2]. split.
    + intros s. rewrite H1. now setoid_rewrite elem_of_elements.
    + intros sid s Hin. apply H2. now apply elem_of_elements.
  - destruct H as (sid & s & Hin & Hs & He).
    assert (e = IndexError) as ->.
    { revert He. unfold is_active_on_date.
      destruct (PyDate.le (valid_from s) d); [|discriminate].
      destruct (weekdays s !! weekday d); congruence. }
    split; [reflexivity|]. exists sid, s. split; [now apply elem_of_elements|now split].
Qed.

(** ** Trips after a load *)

(** What a row does to the trip registry: nothing when it raises, one
    entry under its trip id when it returns. *)
Lemma trips_row_trips (row : string) (c : Catalog) :
  match (trips_row row c).2 with
  | Ok _ =>
      exists f0 f1 f2 f3 f4 f5 f6 f7,
        Str.split ","%char row = [f0; f1; f2; f3; f4; f5; f6; f7]
        /\ all_trips (trips_row row c).1
           = <[f2 := {| trip_id := f2; headsign := f3; short_name := f4;
                        direction := f5; block := f6 |}]> (all_trips c)
  | Raise _ => all_trips (trips_row row c).1 = all_trips c
  end.
Proof.
  destruct (Str.split ","%char row)
    as [|f0 [|f1 [|f2 [|f3 [|f4 [|f5 [|f6 [|f7 [|? ?]]]]]]]]] eqn:Hrow;
    try (unfold trips_row; rewrite Hrow; reflexivity).
  destruct (Str.split "."%char f0 !! 1%nat) as [rid|] eqn:Hrid;
    [|unfold trips_row; rewrite Hrow, Hrid; reflexivity].
  rewrite (trips_row_steps row f0 f1 f2 f3 f4 f5 f6 f7 rid c Hrow Hrid). cbv zeta.
  assert (H1 : all_trips (BusRoute_get rid c).1 = all_trips c).
  { unfold BusRoute_get. destruct (all_routes c !! rid); reflexivity. }
  assert (H2 : all_trips (BusService_get f1 (BusRoute_get rid c).1).1 = all_trips c).
  { rewrite <- H1. unfold BusService_get.
    destruct (all_services _ !! f1); [reflexivity|].
    unfold BusService_init, bind, lift, modify, ret.
    destruct (decode_valid_from f1); reflexivity. }
  destruct (BusService_get f1 (BusRoute_get rid c).1) as [c2 [service|e]];
    cbn in H2 |- *; [|exact H2].
  exists f0, f1, f2, f3, f4, f5, f6, f7. split; [reflexivity|]. now rewrite H2.
Qed.

(** Rows with other trip ids leave the entry of a trip id alone. *)
Lemma trips_rows_frame (lines : list string) (c c' : Catalog) (k : string) :
  trips_rows lines c = (c', Ok tt) ->
  (forall l, l ∈ lines -> Str.strip l <> EmptyString -> trip_key l <> k) ->
  all_trips c' !! k = all_trips c !! k.
Proof.
  revert c. induction lines as [|l lines IH]; intros c Hrun Hkeys.
  { cbn in Hrun. now injection Hrun as <-. }
  rewrite trips_rows_cons in Hrun.
  assert (Hrest : forall l', l' ∈ lines -> Str.strip l' <> EmptyString -> trip_key l' <> k).
  { intros l' Hin. apply Hkeys. now apply list_elem_of_further. }
  destruct (decide (Str.strip l = EmptyString)) as [E|Hne]; [now apply IH|].
  unfold bind in Hrun. pose proof (trips_row_trips (Str.strip l) c) as Heff.
  destruct (trips_row (Str.strip l) c) as [c1 [[]|e]]; [|discriminate Hrun].
  cbn in Heff. destruct Heff as (f0 & f1 & f2 & f3 & f4 & f5 & f6 & f7 & Hrow & Ht).
  rewrite (IH _ Hrun Hrest), Ht. apply lookup_insert_ne.
  pose proof (Hkeys l (list_elem_of_here _ _) Hne) as Hk.
  unfold trip_key in Hk. now rewrite Hrow in Hk.
Qed.

(** X21.  After a load that returns, [BusTrip.get] finds the trip of a
    data row under its trip id, with the head sign, short name, direction
    and block of the row, provided that no later data row has the same
    trip id. *)
Theorem initialize_trip_lookup
  (hdr row : string) (pre post : list string) (c c' : Catalog) :
  BusRoute_initialize (Some (hdr :: pre ++ row :: post)) c = (c', Ok tt) ->
  Str.strip row <> EmptyString ->
  (forall l, l ∈ post -> Str.strip l <> EmptyString -> trip_key l <> trip_key row) ->
  exists f0 f1 f2 f3 f4 f5 f6 f7,
    Str.split ","%char (Str.strip row) = [f0; f1; f2; f3; f4; f5; f6; f7]
    /\ BusTrip_get f2 c'
       = Some {| trip_id := f2; headsign := f3; short_name := f4;
                 direction := f5; block := f6 |}.
Proof.
  intros Hrun Hne Hpost. unfold BusRoute_initialize in Hrun.
  rewrite (bind_ok _ _ _ (set_routes (fun _ => ∅) c) tt) in Hrun by reflexivity.
  change (drop 1 (hdr :: pre ++ row :: post)) with (pre ++ row :: post) in Hrun.
  rewrite trips_rows_app in Hrun. unfold bind at 1 in Hrun.
  destruct (trips_rows pre _) as [c1 [[]|e]]; [|discriminate Hrun].
  rewrite trips_rows_cons in Hrun.
  destruct (decide _); [contradiction|]. unfold bind in Hrun.
  pose proof (trips_row_trips (Str.strip row) c1) as Heff.
  destruct (trips_row (Str.strip row) c1) as [c2 [[]|e]]; [|discriminate Hrun].
  cbn in Heff.
  destruct Heff as (f0 & f1 & f2 & f3 & f4 & f5 & f6 & f7 & Hrow & Ht).
  exists f0, f1, f2, f3, f4, f5, f6, f7. split; [exact Hrow|].
  unfold BusTrip_get. rewrite (trips_rows_frame _ _ _ f2 Hrun), Ht.
  - apply lookup_insert_eq.
  - intros l Hin Hl. specialize (Hpost l Hin Hl).
    unfold trip_key in Hpost at 2. now rewrite Hrow in Hpost.
Qed.

(** ** Loading the same source again *)

Lemma alter_found {A} (f : A -> A) (k : string) (x : A) (m : gmap string A) :
  m !! k = Some x -> alter f k m = <[k := f x]> m.
Proof.
  intros H. apply map_eq. intros j. destruct (decide (k = j)) as [<-|Hne].
  - now rewrite lookup_alter_eq, lookup_insert_eq, H.
  - now rewrite lookup_alter_ne, lookup_insert_ne.
Qed.

(** A row that loads acts on the three registries as one insertion each. *)
Lemma trips_row_pure (row : string) (c c' : Catalog) :
  catalog_wf c ->
  trips_row row c = (c', Ok tt) ->
  exists p,
    parsed row = Some p
    /\ all_trips c' = step_trips p (all_trips c)
    /\ all_services c' = step_services p (all_services c)
    /\ all_routes c' = step_routes p (all_routes c).
Proof.
  intros Hwf. unfold parsed.
  destruct (Str.split ","%char row)
    as [|f0 [|f1 [|f2 [|f3 [|f4 [|f5 [|f6 [|f7 [|? ?]]]]]]]]] eqn:Hrow;
    try (unfold trips_row; rewrite Hrow; discriminate).
  destruct (Str.split "."%char f0 !! 1%nat) as [rid|] eqn:Hrid;
    [|unfold trips_row; rewrite Hrow, Hrid; discriminate].
  rewrite (trips_row_steps row f0 f1 f2 f3 f4 f5 f6 f7 rid c Hrow Hrid). cbv zeta.
  set (t := {| trip_id := f2; headsign := f3; short_name := f4;
               direction := f5; block := f6 |}).
  assert (H1 : all_trips (BusRoute_get rid c).1 = all_trips c
               /\ all_services (BusRoute_get rid c).1 = all_services c
               /\ alter (with_service f1) rid (all_routes (BusRoute_get rid c).1)
                  = step_routes (rid, f1, t) (all_routes c)).
  { unfold BusRoute_get, step_routes. cbn.
    destruct (all_routes c !! rid) as [r|] eqn:Er; cbn.
    - repeat split. now apply alter_found.
    - repeat split. now rewrite alter_insert_eq. }
  destruct H1 as (T1 & S1 & R1).
  destruct (BusRoute_get_wf rid c Hwf) as (_ & _ & Hwf1 & _).
  set (c1 := (BusRoute_get rid c).1) in *.
  unfold BusService_get.
  destruct (all_services c1 !! f1) as [s|] eqn:Es.
  - intros [= <-]. exists (rid, f1, t). split; [reflexivity|].
    destruct Hwf1 as (_ & HS & _). destruct (HS _ _ Es) as (Hid & _).
    cbn. rewrite Hid. split; [now rewrite T1|]. split; [|exact R1].
    unfold step_services. cbn. rewrite <- S1, Es. cbn.
    now rewrite (alter_found _ _ _ _ Es).
  - unfold BusService_init, bind, lift, modify, ret.
    destruct (decode_valid_from f1) as [vf|e] eqn:Ed; [|discriminate].
    intros [= <-]. exists (rid, f1, t). split; [reflexivity|].
    cbn. split; [now rewrite T1|]. split; [|exact R1].
    unfold step_services, fresh_service. cbn. rewrite <- S1, Es, Ed. cbn.
    now rewrite alter_insert_eq.
Qed.

Lemma trips_rows_pure (lines : list string) (c c' : Catalog) :
  catalog_wf c ->
  trips_rows lines c = (c', Ok tt) ->
  all_trips c' = foldl (fun m p => step_trips p m) (all_trips c) (data_rows lines)
  /\ all_services c'
     = foldl (fun m p => step_services p m) (all_services c) (data_rows lines)
  /\ all_routes c' = foldl (fun m p => step_routes p m) (all_routes c) (data_rows lines).
Proof.
  revert c. induction lines as [|l lines IH]; intros c Hwf Hrun.
  { cbn in Hrun. injection Hrun as <-. auto. }
  rewrite trips_rows_cons in Hrun. unfold data_rows. cbn [omap list_omap].
  destruct (decide (Str.strip l = EmptyString)) as [E|Hne].
  { rewrite E. cbn. now apply IH. }
  unfold bind in Hrun. destruct (trips_row_wf (Str.strip l) c Hwf) as (W1 & _ & _).
  destruct (trips_row (Str.strip l) c) as [c1 [[]|e]] eqn:Erow; [|discriminate Hrun].
  destruct (trips_row_pure _ _ _ Hwf Erow) as (p & Hp & HT & HS & HR).
  rewrite Hp. cbn [foldl]. rewrite <- HT, <- HS, <- HR. now apply IH.
Qed.

Lemma foldl_step_trips_lookup (ps : list (string * string * BusTrip))
  (m : gmap string BusTrip) (k : string) :
  foldl (fun m p => step_trips p m) m ps !! k = foldl (trip_at k) (m !! k) ps.
Proof.
  revert m. induction ps as [|p ps IH]; intros m; [reflexivity|].
  cbn [foldl]. rewrite IH. f_equal. unfold step_trips, trip_at.
  destruct (decide (trip_id p.2 = k)) as [<-|Hne].
  - apply lookup_insert_eq.
  - now apply lookup_insert_ne.
Qed.

Lemma foldl_step_services_lookup (ps : list (string * string * BusTrip))
  (m : gmap string BusService) (k : string) :
  foldl (fun m p => step_services p m) m ps !! k = foldl (service_at k) (m !! k) ps.
Proof.
  revert m. induction ps as [|p ps IH]; intros m; [reflexivity|].
  cbn [foldl]. rewrite IH. f_equal. unfold step_services, service_at.
  destruct (decide (p.1.2 = k)) as [<-|Hne].
  - apply lookup_insert_eq.
  - now apply lookup_insert_ne.
Qed.

(** At one key, a sequence of trip insertions either does nothing or ends
    in the same trip whatever was there. *)
Lemma trip_at_cases (k : string) (ps : list (string * string * BusTrip)) :
  (forall o, foldl (trip_at k) o ps = o)
  \/ (exists v, forall o, foldl (trip_at k) o ps = Some v).
Proof.
  induction ps as [|p ps IH]; [now left|]. cbn [foldl].
  destruct IH as [Hid|[v Hv]]; [|right; exists v; intros o; apply Hv].
  unfold trip_at at 2 4. destruct (decide (trip_id p.2 = k)).
  - right. exists p.2. intros o. apply Hid.
  - left. intros o. apply Hid.
Qed.

Lemma step_trips_idem (ps : list (string * string * BusTrip)) (m : gmap string BusTrip) :
  foldl (fun m p => step_trips p m) (foldl (fun m p => step_trips p m) m ps) ps
  = foldl (fun m p => step_trips p m) m ps.
Proof.
  apply map_eq. intros k. rewrite !foldl_step_trips_lookup.
  destruct (trip_at_cases k ps) as [Hid|[v Hv]]; [now rewrite !Hid | now rewrite !Hv].
Qed.

(** At one key, a sequence of service insertions attaches the trips of
    the rows of that service to the service that was there, or to the
    decoding of the code. *)
Lemma service_at_fold (k : string) (ps : list (string * string * BusTrip))
  (o : option BusService) :
  foldl (service_at k) o ps =
    match filter (fun p => p.1.2 = k) ps with
    | [] => o
    | qs => let s := default (fresh_service k) o in
            Some (with_trips (foldl (fun m p => step_trips p m) (service_trips s) qs) s)
    end.
Proof.
  revert o. induction ps as [|p ps IH]; intros o; [reflexivity|].
  cbn [foldl]. rewrite IH, filter_cons.
  destruct (decide (p.1.2 = k)) as [Hk|Hk].
  - assert (service_at k o p
            = Some (with_trips (<[trip_id p.2 := p.2]>
                                  (service_trips (default (fresh_service k) o)))
                      (default (fresh_service k) o))) as ->.
    { unfold service_at. now rewrite decide_True. }
    cbv zeta. cbn [default foldl]. destruct (filter _ ps); reflexivity.
  - assert (service_at k o p = o) as ->.
    { unfold service_at. now rewrite decide_False. }
    reflexivity.
Qed.

Lemma service_at_idem (k : string) (ps : list (string * string * BusTrip))
  (o : option BusService) :
  foldl (service_at k) (foldl (service_at k) o ps) ps = foldl (service_at k) o ps.
Proof.
  rewrite !service_at_fold. destruct (filter (fun p => p.1.2 = k) ps) as [|q qs];
    [reflexivity|].
  cbn [default]. cbv zeta. unfold with_trips at 1 3. cbn [service_trips service_id valid_from weekdays].
  f_equal. unfold with_trips. f_equal. apply step_trips_idem.
Qed.

Lemma step_services_idem (ps : list (string * string * BusTrip))
  (m : gmap string BusService) :
  foldl (fun m p => step_services p m) (foldl (fun m p => step_services p m) m ps) ps
  = foldl (fun m p => step_services p m) m ps.
Proof.
  apply map_eq. intros k. rewrite !foldl_step_services_lookup. apply service_at_idem.
Qed.

(** A source loads when each of its data rows has eight fields, a dotted
    route id and a service code that is registered. *)
Lemma trips_rows_succeeds (lines : list string) (c : Catalog) :
  catalog_wf c ->
  (forall l, l ∈ lines -> Str.strip l <> EmptyString ->
     exists rid sid tid, row_fields l = Some (rid, sid, tid)
                         /\ sid ∈ dom (all_services c)) ->
  (trips_rows lines c).2 = Ok tt.
Proof.
  revert c. induction lines as [|l lines IH]; intros c Hwf Hrows; [reflexivity|].
  rewrite trips_rows_cons.
  assert (Hrest : forall c', catalog_grows c c' ->
            forall l', l' ∈ lines -> Str.strip l' <> EmptyString ->
              exists rid sid tid, row_fields l' = Some (rid, sid, tid)
                                  /\ sid ∈ dom (all_services c')).
  { intros c' (_ & GS & _) l' Hin Hne.
    destruct (Hrows l' (list_elem_of_further _ _ _ Hin) Hne) as (rid & sid & tid & Hf & Hd).
    exists rid, sid, tid. split; [exact Hf|].
    apply elem_of_dom in Hd as [s Hs]. destruct (GS _ _ Hs) as (s' & Hs' & _).
    now apply elem_of_dom_2 in Hs'. }
  destruct (decide (Str.strip l = EmptyString)) as [E|Hne].
  { apply IH; [exact Hwf|]. apply Hrest, catalog_grows_refl. }
  destruct (Hrows l (list_elem_of_here _ _) Hne) as (rid & sid & tid & Hf & Hd).
  unfold row_fields, fields in Hf.
  destruct (Str.split ","%char (Str.strip l))
    as [|f0 [|f1 [|f2 [|f3 [|f4 [|f5 [|f6 [|f7 [|? ?]]]]]]]]] eqn:Hrow;
    try discriminate Hf.
  destruct (Str.split "."%char f0 !! 1%nat) as [rid'|] eqn:Hrid; [|discriminate Hf].
  cbn in Hf. injection Hf as -> -> ->.
  destruct (trips_row_wf (Str.strip l) c Hwf) as (W1 & G1 & _).
  unfold bind.
  assert (Hok : (trips_row (Str.strip l) c).2 = Ok tt).
  { rewrite (trips_row_steps _ _ _ _ _ _ _ _ _ _ c Hrow Hrid). cbv zeta.
    assert (Hd' : is_Some (all_services (BusRoute_get rid c).1 !! sid)).
    { apply elem_of_dom in Hd. unfold BusRoute_get.
      destruct (all_routes c !! rid); exact Hd. }
    destruct Hd' as [s Hs]. unfold BusService_get. now rewrite Hs. }
  destruct (trips_row (Str.strip l) c) as [c1 [[]|e]]; [|discriminate Hok].
  cbn in W1, G1. apply IH; [exact W1|]. now apply Hrest.
Qed.

(** X22.  Loading the same source again changes nothing: after a load
    that returned, a second load of the same source returns and leaves
    the three registries exactly as the first one left them. *)
Theorem initialize_twice_same_source (lines : list string) (c c1 : Catalog) :
  catalog_wf c ->
  BusRoute_initialize (Some lines) c = (c1, Ok tt) ->
  BusRoute_initialize (Some lines) c1 = (c1, Ok tt).
Proof.
  intros Hwf Hrun. unfold BusRoute_initialize in *.
  rewrite (bind_ok _ _ _ (set_routes (fun _ => ∅) c) tt) in Hrun by reflexivity.
  rewrite (bind_ok _ _ _ (set_routes (fun _ => ∅) c1) tt) by reflexivity.
  pose proof (reset_routes_wf c Hwf) as Hwf0.
  destruct (trips_rows_wf (drop 1 lines) _ Hwf0) as (Hwf1 & _ & Hreg).
  rewrite Hrun in Hwf1, Hreg. cbn in Hwf1, Hreg.
  destruct (trips_rows_pure _ _ _ Hwf0 Hrun) as (T1 & S1 & R1). cbn in T1, S1, R1.
  pose proof (reset_routes_wf c1 Hwf1) as Hwf1'.
  assert (Hok : (trips_rows (drop 1 lines) (set_routes (fun _ => ∅) c1)).2 = Ok tt).
  { apply trips_rows_succeeds; [exact Hwf1'|]. intros l Hin Hne.
    destruct (Hreg eq_refl l Hin Hne) as (rid & sid & tid & Hf & (r & s & _ & _ & Hs & _)).
    exists rid, sid, tid. split; [exact Hf|]. cbn. now apply elem_of_dom_2 in Hs. }
  destruct (trips_rows (drop 1 lines) (set_routes (fun _ => ∅) c1)) as [c2 r2] eqn:E2.
  cbn in Hok. subst r2.
  destruct (trips_rows_pure _ _ _ Hwf1' E2) as (T2 & S2 & R2). cbn in T2, S2, R2.
  f_equal. destruct c1 as [t1 s1 r1], c2 as [t2 s2 r2]. cbn in *.
  rewrite T2, S2, R2. rewrite T1 at 2. rewrite S1 at 2. rewrite R1.
  rewrite T1, S1. now rewrite step_trips_idem, step_services_idem.
Qed.

(** ** The stop directory *)

Section StopDirectory.
Variable fos : string -> option float.

(** A row of five fields, case by case. *)
Lemma stops_row_steps (row f0 f1 f2 f3 f4 : string) (st : gmap string BusStop) :
  Str.split ","%char row = [f0; f1; f2; f3; f4] ->
  stops_row fos row st =
    match fos f2, fos f3 with
    | Some lat, Some lon =>
        if lat_in_range lat && lon_in_range lon then
          (<[Str.strip f0 := {| stop_id := Str.strip f0; stop_name := Str.strip f1;
                                stop_location := (lat, lon) |}]> st, Ok tt)
        else (st, Raise AssertionError)
    | _, _ => (st, Raise ValueError)
    end.
Proof.
  intros Hrow. unfold stops_row. rewrite Hrow.
  unfold bind, lift, py_float, BusStop_init, modify, throw.
  destruct (fos f2) as [lat|]; [|reflexivity].
  destruct (fos f3) as [lon|]; [|reflexivity].
  destruct (lat_in_range lat); [|reflexivity].
  destruct (lon_in_range lon); reflexivity.
Qed.

(** What a row does to the directory: nothing when it raises, one entry
    under its stop id when it returns. *)
Lemma stops_row_effect (row : string) (st : gmap string BusStop) :
  match (stops_row fos row st).2 with
  | Ok _ =>
      exists f0 f1 f2 f3 f4 lat lon,
        Str.split ","%char row = [f0; f1; f2; f3; f4]
        /\ fos f2 = Some lat /\ fos f3 = Some lon
        /\ lat_in_range lat = true /\ lon_in_range lon = true
        /\ (stops_row fos row st).1
           = <[Str.strip f0 := {| stop_id := Str.strip f0; stop_name := Str.strip f1;
                                  stop_location := (lat, lon) |}]> st
  | Raise e => (stops_row fos row st).1 = st
  end.
Proof.
  destruct (Str.split ","%char row) as [|f0 [|f1 [|f2 [|f3 [|f4 [|? ?]]]]]] eqn:Hrow;
    try (unfold stops_row; rewrite Hrow; reflexivity).
  rewrite (stops_row_steps _ _ _ _ _ _ _ Hrow).
  destruct (fos f2) as [lat|] eqn:E2; [|reflexivity].
  destruct (fos f3) as [lon|] eqn:E3; [|reflexivity].
  destruct (lat_in_range lat) eqn:Hlat; [|reflexivity].
  destruct (lon_in_range lon) eqn:Hlon; [|reflexivity].
  cbn. exists f0, f1, f2, f3, f4, lat, lon. repeat split; assumption.
Qed.

Lemma stops_row_wf (row : string) (st : gmap string BusStop) :
  stops_wf st ->
  stops_wf (stops_row fos row st).1 /\ dom st ⊆ dom (stops_row fos row st).1.
Proof.
  intros Hwf. pose proof (stops_row_effect row st) as H.
  destruct (stops_row fos row st) as [st' [[]|e]]; cbn in *; [|now subst].
  destruct H as (f0 & f1 & f2 & f3 & f4 & lat & lon & _ & _ & _ & Hlat & Hlon & ->).
  split; [|rewrite dom_insert_L; set_solver].
  intros k s [[<- <-]|[_ H]]%lookup_insert_Some; [done|]. now apply Hwf.
Qed.

Lemma stops_rows_wf (lines : list string) (st : gmap string BusStop) :
  stops_wf st ->
  stops_wf (stops_rows fos lines st).1 /\ dom st ⊆ dom (stops_rows fos lines st).1.
Proof.
  revert st. induction lines as [|l lines IH]; intros st Hwf; [done|].
  rewrite stops_rows_cons. destruct (decide _); [now apply IH|].
  unfold bind. destruct (stops_row_wf (Str.strip l) st Hwf) as [W1 D1].
  destruct (stops_row fos (Str.strip l) st) as [st1 [[]|e]]; cbn in *; [|done].
  destruct (IH st1 W1) as [W2 D2]. split; [done|set_solver].
Qed.

(** X10.  [BusStop.initialize] keeps the directory consistent and never
    removes a stop, whatever the source and whether it returns or raises:
    every stop is registered under its own id with a latitude within
    -90..90 and a longitude within -180..180, and the stops registered
    before the load are still registered (a second load adds to the
    first). *)
Theorem BusStop_initialize_keeps_stops
  (file : option (list string)) (st : gmap string BusStop) :
  stops_wf st ->
  stops_wf (BusStop_initialize fos file st).1
  /\ dom st ⊆ dom (BusStop_initialize fos file st).1.
Proof.
  intros Hwf. unfold BusStop_initialize.
  destruct file as [lines|]; [now apply stops_rows_wf | done].
Qed.

(** Rows with other stop ids leave the entry of a stop id alone. *)
Lemma stops_rows_frame (lines : list string) (st st' : gmap string BusStop) (k : string) :
  stops_rows fos lines st = (st', Ok tt) ->
  (forall l, l ∈ lines -> Str.strip l <> EmptyString -> stop_key l <> k) ->
  st' !! k = st !! k.
Proof.
  revert st. induction lines as [|l lines IH]; intros st Hrun Hkeys.
  { cbn in Hrun. now injection Hrun as <-. }
  rewrite stops_rows_cons in Hrun.
  assert (Hrest : forall l', l' ∈ lines -> Str.strip l' <> EmptyString -> stop_key l' <> k).
  { intros l' Hin. apply Hkeys. now apply list_elem_of_further. }
  destruct (decide (Str.strip l = EmptyString)) as [E|Hne]; [now apply IH|].
  unfold bind in Hrun. pose proof (stops_row_effect (Str.strip l) st) as Heff.
  destruct (stops_row fos (Str.strip l) st) as [st1 [[]|e]]; [|discriminate Hrun].
  cbn in Heff. destruct Heff as (f0 & f1 & f2 & f3 & f4 & lat & lon & Hrow & _ & _ & _ & _ & ->).
  rewrite (IH _ Hrun Hrest). apply lookup_insert_ne.
  pose proof (Hkeys l (list_elem_of_here _ _) Hne) as Hk.
  unfold stop_key in Hk. now rewrite Hrow in Hk.
Qed.

(** X11.  After a load that returns, a data row of the source is found
    again by [BusStop.lookup] under its stripped stop id, with its
    stripped name and its coordinates as [float] reads them, which are
    in range, provided that no later data row has the same stop id. *)
Theorem BusStop_initialize_lookup
  (hdr row : string) (pre post : list string) (st st' : gmap string BusStop) :
  BusStop_initialize fos (Some (hdr :: pre ++ row :: post)) st = (st', Ok tt) ->
  Str.strip row <> EmptyString ->
  (forall l, l ∈ post -> Str.strip l <> EmptyString -> stop_key l <> stop_key row) ->
  exists f0 f1 f2 f3 f4 lat lon,
    Str.split ","%char (Str.strip row) = [f0; f1; f2; f3; f4]
    /\ fos f2 = Some lat /\ fos f3 = Some lon
    /\ lat_in_range lat = true /\ lon_in_range lon = true
    /\ BusStop_lookup (Str.strip f0) st'
       = Some {| stop_id := Str.strip f0; stop_name := Str.strip f1;
                 stop_location := (lat, lon) |}.
Proof.
  intros Hrun Hne Hpost. unfold BusStop_initialize in Hrun.
  change (drop 1 (hdr :: pre ++ row :: post)) with (pre ++ row :: post) in Hrun.
  rewrite stops_rows_app in Hrun. unfold bind at 1 in Hrun.
  destruct (stops_rows fos pre st) as [st1 [[]|e]]; [|discriminate Hrun].
  rewrite stops_rows_cons in Hrun.
  destruct (decide _); [contradiction|]. unfold bind in Hrun.
  pose proof (stops_row_effect (Str.strip row) st1) as Heff.
  destruct (stops_row fos (Str.strip row) st1) as [st2 [[]|e]]; [|discriminate Hrun].
  cbn in Heff.
  destruct Heff as (f0 & f1 & f2 & f3 & f4 & lat & lon & Hrow & H2 & H3 & Hlat & Hlon & ->).
  exists f0, f1, f2, f3, f4, lat, lon. repeat split; try assumption.
  unfold BusStop_lookup. rewrite (stops_rows_frame _ _ _ (Str.strip f0) Hrun).
  - apply lookup_insert_eq.
  - intros l Hin Hl. specialize (Hpost l Hin Hl).
    unfold stop_key in Hpost at 2. now rewrite Hrow in Hpost.
Qed.

(** X12.  A data row of five fields whose latitude or longitude [float]
    cannot read makes the load raise [ValueError], and one whose latitude
    or longitude is out of range makes it raise [AssertionError]; the
    directory is left as the rows before it made it. *)
Theorem BusStop_initialize_bad_coordinates
  (hdr bad f0 f1 f2 f3 f4 : string) (pre post : list string)
  (st st1 : gmap string BusStop) :
  Str.split ","%char (Str.strip bad) = [f0; f1; f2; f3; f4] ->
  stops_rows fos pre st = (st1, Ok tt) ->
  (fos f2 = None \/ fos f3 = None ->
   BusStop_initialize fos (Some (hdr :: pre ++ bad :: post)) st
   = (st1, Raise ValueError))
  /\ (forall lat lon,
        fos f2 = Some lat -> fos f3 = Some lon ->
        lat_in_range lat && lon_in_range lon = false ->
        BusStop_initialize fos (Some (hdr :: pre ++ bad :: post)) st
        = (st1, Raise AssertionError)).
Proof.
  intros Hrow Hpre.
  assert (Hne : Str.strip bad <> EmptyString).
  { intros E. rewrite E in Hrow. discriminate Hrow. }
  assert (H : forall e, stops_row fos (Str.strip bad) st1 = (st1, Raise e) ->
                        BusStop_initialize fos (Some (hdr :: pre ++ bad :: post)) st
                        = (st1, Raise e)).
  { intros e He. unfold BusStop_initialize.
    change (drop 1 (hdr :: pre ++ bad :: post)) with (pre ++ bad :: post).
    rewrite stops_rows_app, (bind_ok _ _ _ _ _ Hpre), stops_rows_cons.
    destruct (decide _); [contradiction|]. now apply bind_raise. }
  pose proof (stops_row_steps _ _ _ _ _ _ st1 Hrow) as Hsteps.
  split.
  - intros Hnone. apply H. rewrite Hsteps.
    destruct (fos f2); [|reflexivity]. destruct (fos f3); [|reflexivity].
    destruct Hnone; discriminate.
  - intros lat lon H2 H3 Hrange. apply H. now rewrite Hsteps, H2, H3, Hrange.
Qed.

End StopDirectory.

(** ** The fleet snapshot *)

Section FleetSnapshot.
Variable fos : string -> option float.

Lemma parse_bus_ok (bus : Element) (b : Bus) :
  parse_bus fos bus = Ok b ->
  bus_route_id b = elem_get bus "route"
  /\ lat_in_range (bus_location b).1 = true
  /\ lon_in_range (bus_location b).2 = true.
Proof.
  unfold parse_bus, result_bind.
  destruct (py_float fos (elem_get bus "lat")) as [lat|]; [|discriminate].
  destruct (py_float fos (elem_get bus "lon")) as [lon|]; [|discriminate].
  destruct (py_float fos (elem_get bus "head")) as [heading|]; [|discriminate].
  destruct (PyInt.int_opt (elem_get bus "code")) as [code|]; [|discriminate].
  destruct (lat_in_range lat) eqn:Hlat; cbn [negb]; [|discriminate].
  destruct (lon_in_range lon) eqn:Hlon; cbn [negb]; [|discriminate].
  intros [= <-]. cbn. auto.
Qed.

(** The loop over the records: the records before the first that cannot
    be read are all in the mapping, in their order. *)
Lemma group_buses_spec (l : list Element) (m0 : gmap (option string) (list Bus)) :
  exists buses,
    (group_buses fos l m0).1 = foldl (fun m b => add_bus b m) m0 buses
    /\ match (group_buses fos l m0).2 with
       | Ok _ => Forall2 (fun e b => parse_bus fos e = Ok b) l buses
       | Raise e =>
           exists pre bad post,
             l = pre ++ bad :: post
             /\ Forall2 (fun e b => parse_bus fos e = Ok b) pre buses
             /\ parse_bus fos bad = Raise e
       end.
Proof.
  revert m0. induction l as [|bus l IH]; intros m0; cbn.
  { exists []. split; [reflexivity|constructor]. }
  destruct (parse_bus fos bus) as [b|e] eqn:E.
  - destruct (IH (add_bus b m0)) as (buses & H1 & H2).
    exists (b :: buses). split; [exact H1|].
    destruct (group_buses fos l (add_bus b m0)).2 as [[]|e'].
    + now constructor.
    + destruct H2 as (pre & bad & post & -> & Hpre & Hbad).
      exists (bus :: pre), bad, post. split; [reflexivity|]. split; [now constructor|exact Hbad].
  - exists []. split; [reflexivity|]. exists [], bus, l. split; [reflexivity|].
    split; [constructor|exact E].
Qed.

Lemma group_buses_raises (l : list Element) (m0 : gmap (option string) (list Bus))
  (bus : Element) (e : exn) :
  bus ∈ l -> parse_bus fos bus = Raise e ->
  exists e', (group_buses fos l m0).2 = Raise e'.
Proof.
  intros Hin Hbad. revert m0. induction l as [|x l IH]; intros m0; [inversion Hin|].
  cbn. apply elem_of_cons in Hin as [<-|Hin].
  - rewrite Hbad. eauto.
  - destruct (parse_bus fos x); [now apply IH | eauto].
Qed.

Lemma add_bus_lookup (b : Bus) (m : gmap (option string) (list Bus)) (k : option string) :
  add_bus b m !! k =
    if decide (bus_route_id b = k) then Some (default [] (m !! k) ++ [b]) else m !! k.
Proof.
  unfold add_bus. destruct (decide (bus_route_id b = k)) as [<-|Hne].
  - apply lookup_insert_eq.
  - now apply lookup_insert_ne.
Qed.

Lemma foldl_add_bus_lookup (buses : list Bus) (m0 : gmap (option string) (list Bus))
  (k : option string) :
  foldl (fun m b => add_bus b m) m0 buses !! k =
    match on_route k buses with
    | [] => m0 !! k
    | l => Some (default [] (m0 !! k) ++ l)
    end.
Proof.
  revert m0. induction buses as [|b buses IH]; intros m0; [reflexivity|].
  cbn [foldl]. rewrite IH, add_bus_lookup. unfold on_route. rewrite filter_cons.
  destruct (decide (bus_route_id b = k)) as [Hk|Hk]; cbn.
  - destruct (filter _ buses); cbn; [reflexivity|]. now rewrite <- app_assoc.
  - reflexivity.
Qed.

Lemma add_bus_wf (b : Bus) (m : gmap (option string) (list Bus)) :
  snapshot_wf m ->
  lat_in_range (bus_location b).1 = true ->
  lon_in_range (bus_location b).2 = true ->
  snapshot_wf (add_bus b m).
Proof.
  intros Hwf Hlat Hlon k l x. rewrite add_bus_lookup.
  destruct (decide (bus_route_id b = k)) as [<-|Hne]; [|apply Hwf].
  intros [= <-] [Hin|Hin]%elem_of_app.
  - destruct (m !! bus_route_id b) as [l0|] eqn:E; [|inversion Hin].
    eapply Hwf; eassumption.
  - apply list_elem_of_singleton in Hin as ->. auto.
Qed.

Lemma group_buses_wf (l : list Element) (m0 : gmap (option string) (list Bus)) :
  snapshot_wf m0 -> snapshot_wf (group_buses fos l m0).1.
Proof.
  revert m0. induction l as [|bus l IH]; intros m0 Hwf; [exact Hwf|].
  cbn. destruct (parse_bus fos bus) as [b|e] eqn:E; [|exact Hwf].
  destruct (parse_bus_ok _ _ E) as (_ & Hlat & Hlon).
  now apply IH, add_bus_wf.
Qed.

Lemma snapshot_wf_empty : snapshot_wf ∅.
Proof. intros k l b. rewrite lookup_empty. discriminate. Qed.

Lemma refresh_state_snapshot_wf (w : World) (st : BusState) :
  state_snapshot_wf st -> state_snapshot_wf (Bus_refresh_state fos w st).1.
Proof.
  intros Hwf.
  assert (L : state_snapshot_wf (Bus_load_state fos w st).1).
  { rewrite load_state_spec. cbv zeta.
    destruct (choose_source w).2 as [root|e].
    - pose proof (group_buses_wf (findall "bus" root) ∅ snapshot_wf_empty) as Hg.
      destruct (group_buses fos (findall "bus" root) ∅).2 as [[]|e];
        intros m [= <-]; exact Hg.
    - intros m [= <-]. apply snapshot_wf_empty. }
  unfold Bus_refresh_state. destruct (timestamp st) as [ts|]; [|exact L].
  destruct (now w - ts <? staleness_window); [exact Hwf | exact L].
Qed.

(** X13.  Every entry point keeps the snapshot consistent, whether it
    returns or raises: every sighting is filed under its own route id,
    with a latitude within -90..90 and a longitude within -180..180. *)
Theorem snapshot_stays_consistent (w : World) (rid : option string) (st : BusState) :
  state_snapshot_wf st ->
  state_snapshot_wf (Bus_refresh_state fos w st).1
  /\ state_snapshot_wf (Bus_all_buses fos w st).1
  /\ state_snapshot_wf (Bus_buses_on_route fos w rid st).1.
Proof.
  intros Hwf. pose proof (refresh_state_snapshot_wf w st Hwf) as H.
  split; [exact H|]. unfold Bus_all_buses, Bus_buses_on_route, bind.
  destruct (Bus_refresh_state fos w st) as [st1 [[]|e]]; cbn in H |- *;
    [|split; exact H].
  split; [exact H|]. unfold all_buses_getitem, defaultdict_getitem.
  destruct (all_buses st1) as [d|] eqn:Ed; [|exact H].
  destruct (d !! rid) as [l|] eqn:El; cbn.
  - intros m [= <-]. now apply H.
  - intros m [= <-] k l b [[<- <-]|[_ Hl]]%lookup_insert_Some Hin; [inversion Hin|].
    eapply H; eassumption.
Qed.

(** X14.  Parsing a document groups its sightings by route: when every
    [bus] record of the document can be read, the mapping has a key for
    exactly the route ids that occur, and the list of a route holds the
    sightings of that route in document order. *)
Theorem parse_snapshot_groups_by_route
  (root : Element) (m : gmap (option string) (list Bus)) :
  parse_snapshot fos root = Ok m ->
  exists buses,
    Forall2 (fun e b => parse_bus fos e = Ok b) (findall "bus" root) buses
    /\ forall k, m !! k = match on_route k buses with
                          | [] => None
                          | l => Some l
                          end.
Proof.
  rewrite parse_snapshot_group.
  destruct (group_buses_spec (findall "bus" root) ∅) as (buses & H1 & H2).
  destruct (group_buses fos (findall "bus" root) ∅).2 as [[]|e]; [|discriminate].
  intros [= <-]. exists buses. split; [exact H2|].
  intros k. rewrite H1, foldl_add_bus_lookup, lookup_empty. reflexivity.
Qed.

End FleetSnapshot.

(** ** The refresh protocol *)

Section RefreshProtocol.
Variable fos : string -> option float.

Lemma fetches_logged (es : list io_event) (st : BusState) :
  fetches (logged es st) = (fetches st + length (filter (fun e => e = Fetch) es))%nat.
Proof. unfold fetches, logged. cbn. now rewrite filter_app, length_app. Qed.

Lemma reads_logged (es : list io_event) (st : BusState) :
  reads (logged es st) = (reads st + length (filter (fun e => e = Read) es))%nat.
Proof. unfold reads, logged. cbn. now rewrite filter_app, length_app. Qed.

Lemma load_state_io_log (w : World) (st : BusState) :
  io_log (Bus_load_state fos w st).1 = io_log st ++ (choose_source w).1.
Proof.
  rewrite load_state_spec. cbv zeta.
  destruct (choose_source w).2 as [root|e]; [|reflexivity].
  destruct (group_buses fos (findall "bus" root) ∅).2 as [[]|e]; reflexivity.
Qed.

Lemma refresh_raises_stale (w : World) (st st' : BusState) (e : exn) :
  Bus_refresh_state fos w st = (st', Raise e) ->
  stale st w = true /\ Bus_load_state fos w st = (st', Raise e).
Proof.
  unfold Bus_refresh_state, stale. destruct (timestamp st) as [ts|]; [|auto].
  destruct (now w - ts <? staleness_window); [discriminate|auto].
Qed.

(** X15.  When a refresh is due and the remote endpoint answers with the
    success status and a document, [all_buses] returns the snapshot
    parsed from that document and stamps it with the time at the end of
    the load; the local file is not read.  When a record of the document
    cannot be read, [all_buses] raises what the parse raises. *)
Theorem all_buses_from_remote (w : World) (st : BusState) (root : Element) :
  stale st w = true ->
  remote w = Response requests_codes_ok (Document root) ->
  match parse_snapshot fos root with
  | Ok m =>
      Bus_all_buses fos w st
      = ({| all_buses := Some m; timestamp := Some (load_end w);
            io_log := io_log st ++ [Fetch] |}, Ok (Some m))
  | Raise e => (Bus_all_buses fos w st).2 = Raise e
  end.
Proof.
  intros Hst Hr.
  assert (Hs : choose_source w = ([Fetch], Ok root)).
  { unfold choose_source. now rewrite Hr. }
  rewrite parse_snapshot_group. unfold Bus_all_buses, bind.
  rewrite (refresh_state_stale fos w st Hst), load_state_spec, Hs. cbv zeta. cbn [fst snd].
  destruct (group_buses fos (findall "bus" root) ∅) as [m [[]|e]]; reflexivity.
Qed.

(** X16.  A refresh that is due performs exactly one fetch, and at most
    one read of the local file: one when the remote endpoint answered
    with a status that is not the success status, none otherwise. *)
Theorem due_refresh_fetches_once (w : World) (st : BusState) :
  stale st w = true ->
  fetches (Bus_refresh_state fos w st).1 = (fetches st + 1)%nat
  /\ reads (Bus_refresh_state fos w st).1 =
       (reads st + match remote w with
                   | Response sc _ => if (sc =? requests_codes_ok)%Z then 0 else 1
                   | NoConnection => 0
                   end)%nat.
Proof.
  intros Hst. rewrite (refresh_state_stale fos w st Hst).
  unfold fetches, reads. rewrite load_state_io_log, !filter_app, !length_app.
  unfold choose_source. destruct (remote w) as [|sc body]; [split; reflexivity|].
  destruct (sc =? requests_codes_ok).
  - destruct body; split; reflexivity.
  - destruct (status_file w) as [|[|root]]; split; reflexivity.
Qed.

(** X17.  One record that cannot be read aborts the whole load: when a
    refresh is due and a [bus] record of the document it works on cannot
    be read, the refresh raises what the first such record raises, the
    timestamp is left as it was, and the snapshot left behind holds the
    records before that one only. *)
Theorem refresh_aborts_on_bad_record
  (w : World) (st : BusState) (root bus : Element) (e : exn) :
  stale st w = true ->
  (choose_source w).2 = Ok root ->
  bus ∈ findall "bus" root ->
  parse_bus fos bus = Raise e ->
  exists e' pre bad post buses,
    findall "bus" root = pre ++ bad :: post
    /\ Forall2 (fun x b => parse_bus fos x = Ok b) pre buses
    /\ parse_bus fos bad = Raise e'
    /\ (Bus_refresh_state fos w st).2 = Raise e'
    /\ all_buses (Bus_refresh_state fos w st).1
       = Some (foldl (fun m b => add_bus b m) ∅ buses)
    /\ timestamp (Bus_refresh_state fos w st).1 = timestamp st.
Proof.
  intros Hst Hs Hin Hbad.
  rewrite (refresh_state_stale fos w st Hst), load_state_spec, Hs. cbv zeta.
  destruct (group_buses_raises fos _ ∅ _ _ Hin Hbad) as [e' He'].
  destruct (group_buses_spec fos (findall "bus" root) ∅) as (buses & H1 & H2).
  rewrite He' in H2 |- *. destruct H2 as (pre & bad & post & Hl & Hpre & Hb).
  exists e', pre, bad, post, buses. cbn. rewrite H1. repeat split; assumption.
Qed.

(** X18.  A refresh that raises leaves the timestamp as it was and a
    mapping in place; the state is then due for a refresh at every later
    time, so the next call loads again. *)
Theorem failed_refresh_is_retried (w : World) (st st' : BusState) (e : exn) :
  Bus_refresh_state fos w st = (st', Raise e) ->
  timestamp st' = timestamp st
  /\ is_Some (all_buses st')
  /\ (forall w', now w <= now w' ->
        stale st' w' = true
        /\ Bus_refresh_state fos w' st' = Bus_load_state fos w' st').
Proof.
  intros H. destruct (refresh_raises_stale w st st' e H) as [Hst Hl].
  assert (Hts : timestamp st' = timestamp st /\ is_Some (all_buses st')).
  { revert Hl. rewrite load_state_spec. cbv zeta.
    destruct (choose_source w).2 as [root|e0].
    - destruct (group_buses fos (findall "bus" root) ∅).2 as [[]|e1]; [discriminate|].
      intros [= <- _]. cbn. eauto.
    - intros [= <- _]. cbn. eauto. }
  destruct Hts as [Hts Hall]. split; [exact Hts|]. split; [exact Hall|].
  intros w' Hle.
  assert (Hst' : stale st' w' = true).
  { unfold stale in *. rewrite Hts. destruct (timestamp st) as [ts|]; [|reflexivity].
    apply negb_true_iff, Z.ltb_ge in Hst. apply negb_true_iff, Z.ltb_ge. lia. }
  split; [exact Hst'|]. now apply refresh_state_stale.
Qed.

(** X19.  [buses_on_route] agrees with [all_buses]: when [all_buses]
    would return a mapping, [buses_on_route] returns the list of the
    route in that mapping, or the empty list when the route is not a key
    of it, after the same input and output and with the same timestamp. *)
Theorem buses_on_route_agrees_with_all_buses
  (w : World) (rid : option string) (st st' : BusState)
  (m : gmap (option string) (list Bus)) :
  Bus_all_buses fos w st = (st', Ok (Some m)) ->
  (Bus_buses_on_route fos w rid st).2 = Ok (default [] (m !! rid))
  /\ all_buses (Bus_buses_on_route fos w rid st).1
     = Some (match m !! rid with Some _ => m | None => <[rid := []]> m end)
  /\ timestamp (Bus_buses_on_route fos w rid st).1 = timestamp st'
  /\ io_log (Bus_buses_on_route fos w rid st).1 = io_log st'.
Proof.
  unfold Bus_all_buses, Bus_buses_on_route, bind, gets.
  destruct (Bus_refresh_state fos w st) as [st1 [[]|e]]; [|discriminate].
  intros [= -> Hm]. unfold all_buses_getitem, defaultdict_getitem. rewrite Hm.
  destruct (m !! rid) as [l|]; cbn; auto.
Qed.

(** X20.  From a state that has a mapping whenever it has a timestamp
    (as the initial state has), every entry point leads to such a state;
    [all_buses] then never returns [None], and [all_buses] and
    [buses_on_route] raise exactly when the refresh raises, with its
    exception. *)
Theorem entry_points_keep_wf_state (w : World) (rid : option string) (st : BusState) :
  wf_state st ->
  wf_state (Bus_all_buses fos w st).1
  /\ wf_state (Bus_buses_on_route fos w rid st).1
  /\ match (Bus_refresh_state fos w st).2 with
     | Ok _ =>
         exists m l, (Bus_all_buses fos w st).2 = Ok (Some m)
                     /\ (Bus_buses_on_route fos w rid st).2 = Ok l
     | Raise e =>
         (Bus_all_buses fos w st).2 = Raise e
         /\ (Bus_buses_on_route fos w rid st).2 = Raise e
     end.
Proof.
  intros Hwf. pose proof (refresh_state_wf fos w st Hwf) as H1.
  pose proof (refresh_state_ok fos w st) as H2.
  unfold Bus_all_buses, Bus_buses_on_route, bind, gets.
  destruct (Bus_refresh_state fos w st) as [st1 [[]|e]]; cbn in H1 |- *; [|auto].
  destruct (H2 st1 Hwf eq_refl) as [Hts [m Hm]].
  unfold all_buses_getitem, defaultdict_getitem. rewrite Hm.
  split; [exact H1|]. split.
  - destruct (m !! rid); cbn; intros _; cbn; eauto.
  - exists m. destruct (m !! rid); cbn; eauto.
Qed.

End RefreshProtocol.

(** ** The further properties on the samples *)

Lemma stops_wf_empty : stops_wf ∅.
Proof. intros k s. rewrite lookup_empty. discriminate. Qed.

Lemma state_snapshot_wf_initial : state_snapshot_wf initial_state.
Proof. intros m H. discriminate H. Qed.

Lemma initialize_keeps_catalog_wf_witness :
  catalog_wf (BusRoute_initialize (Some trips_sample_short_row) empty_catalog).1.
Proof.
  apply (initialize_keeps_catalog_wf (Some trips_sample_short_row) empty_catalog).
  exact catalog_wf_empty.
Defined.

Lemma initialize_registers_every_row_witness :
  exists rid sid tid,
    row_fields "ST.17,20240115-M------,t1,Hlemmur,17,0,b1,s1" = Some (rid, sid, tid)
    /\ row_registered rid sid tid
         (BusRoute_initialize (Some trips_sample_a) empty_catalog).1.
Proof.
  apply (initialize_registers_every_row trips_sample_a _ empty_catalog _ catalog_wf_empty).
  - vm_compute. reflexivity.
  - apply list_elem_of_here.
  - vm_compute. discriminate.
Defined.

Lemma initialize_keeps_services_witness :
  exists s',
    all_services
      (BusRoute_initialize (Some trips_sample_b)
         (BusRoute_initialize (Some trips_sample_a) empty_catalog).1).1
      !! "20240115-M------" = Some s'
    /\ valid_from s' = Date 2024 1 15
    /\ weekdays s' = [true; false; false; false; false; false; false]
    /\ dom ({["t1" := trip_t1]} : gmap string BusTrip) ⊆ dom (service_trips s').
Proof.
  assert (Hwf : catalog_wf (BusRoute_initialize (Some trips_sample_a) empty_catalog).1)
    by apply initialize_wf_grows, catalog_wf_empty.
  assert (Hs : all_services (BusRoute_initialize (Some trips_sample_a) empty_catalog).1
               !! "20240115-M------"
               = Some {| service_id := "20240115-M------";
                         service_trips := {["t1" := trip_t1]};
                         valid_from := Date 2024 1 15;
                         weekdays := [true; false; false; false; false; false; false] |})
    by (vm_compute; reflexivity).
  exact (initialize_keeps_services (Some trips_sample_b) _ _ _ Hwf Hs).
Defined.

Lemma BusService_get_idempotent_witness :
  let c' := set_services <["20240115-M------" := sample_service]> empty_catalog in
  all_services c' !! "20240115-M------" = Some sample_service
  /\ BusService_get "20240115-M------" c' = (c', Ok sample_service)
  /\ (forall k, k <> "20240115-M------" ->
        all_services c' !! k = all_services empty_catalog !! k)
  /\ all_trips c' = all_trips empty_catalog
  /\ all_routes c' = all_routes empty_catalog.
Proof.
  apply (BusService_get_idempotent "20240115-M------" empty_catalog). reflexivity.
Defined.

Lemma initialize_route_id_without_dot_witness :
  BusRoute_initialize (Some trips_sample_no_dot) empty_catalog
  = (empty_catalog, Raise IndexError).
Proof.
  eapply (initialize_route_id_without_dot trips_header
            "ST17,20240115-M------,t1,Hlemmur,17,0,b1,s1"
            "ST17" _ _ _ _ _ _ _ [] [] empty_catalog).
  - vm_compute. reflexivity.
  - intros H. repeat (apply elem_of_cons in H as [H|H]; [discriminate H|]).
    inversion H.
  - reflexivity.
Defined.

Lemma initialize_bad_service_code_witness :
  let c2 := (BusRoute_initialize (Some trips_sample_bad_code) empty_catalog).1 in
  BusRoute_initialize (Some trips_sample_bad_code) empty_catalog = (c2, Raise ValueError)
  /\ is_Some (all_routes c2 !! "17")
  /\ (forall k, k <> "17" -> all_routes c2 !! k = all_routes empty_catalog !! k)
  /\ all_services c2 = all_services empty_catalog
  /\ all_trips c2 = all_trips empty_catalog.
Proof.
  eapply (initialize_bad_service_code trips_header
            "ST.17,2024011X-M------,t1,Hlemmur,17,0,b1,s1"
            _ _ _ _ _ _ _ _ "17" [] [] empty_catalog empty_catalog ValueError).
  - vm_compute. reflexivity.
  - vm_compute. reflexivity.
  - reflexivity.
  - reflexivity.
  - vm_compute. reflexivity.
Defined.

Lemma initialize_trip_lookup_witness :
  exists f0 f1 f2 f3 f4 f5 f6 f7,
    Str.split ","%char (Str.strip "ST.17,20240115-M------,t1,Hlemmur,17,0,b1,s1")
    = [f0; f1; f2; f3; f4; f5; f6; f7]
    /\ BusTrip_get f2 (BusRoute_initialize (Some trips_sample_a) empty_catalog).1
       = Some {| trip_id := f2; headsign := f3; short_name := f4;
                 direction := f5; block := f6 |}.
Proof.
  apply (initialize_trip_lookup trips_header
           "ST.17,20240115-M------,t1,Hlemmur,17,0,b1,s1" [] [] empty_catalog).
  - vm_compute. reflexivity.
  - vm_compute. discriminate.
  - intros l H. inversion H.
Defined.

Lemma initialize_twice_same_source_witness :
  BusRoute_initialize (Some trips_sample_a)
    (BusRoute_initialize (Some trips_sample_a) empty_catalog).1
  = ((BusRoute_initialize (Some trips_sample_a) empty_catalog).1, Ok tt).
Proof.
  apply (initialize_twice_same_source trips_sample_a empty_catalog).
  - exact catalog_wf_empty.
  - vm_compute. reflexivity.
Defined.

Lemma BusStop_initialize_keeps_stops_witness :
  stops_wf (BusStop_initialize sample_float_of_string (Some stops_sample) ∅).1
  /\ dom (∅ : gmap string BusStop)
     ⊆ dom (BusStop_initialize sample_float_of_string (Some stops_sample) ∅).1.
Proof.
  apply (BusStop_initialize_keeps_stops sample_float_of_string (Some stops_sample) ∅).
  exact stops_wf_empty.
Defined.

Lemma BusStop_initialize_lookup_witness :
  exists f0 f1 f2 f3 f4 lat lon,
    Str.split ","%char (Str.strip " 90000295 , Hlemmur ,64.5,-21.75,0")
    = [f0; f1; f2; f3; f4]
    /\ sample_float_of_string f2 = Some lat /\ sample_float_of_string f3 = Some lon
    /\ lat_in_range lat = true /\ lon_in_range lon = true
    /\ BusStop_lookup (Str.strip f0)
         (BusStop_initialize sample_float_of_string (Some stops_sample) ∅).1
       = Some {| stop_id := Str.strip f0; stop_name := Str.strip f1;
                 stop_location := (lat, lon) |}.
Proof.
  apply (BusStop_initialize_lookup sample_float_of_string stops_header
           " 90000295 , Hlemmur ,64.5,-21.75,0" [] [] ∅).
  - vm_compute. reflexivity.
  - vm_compute. discriminate.
  - intros l H. inversion H.
Defined.

Lemma BusStop_initialize_bad_coordinates_witness :
  BusStop_initialize sample_float_of_string (Some stops_sample_far) ∅
  = (∅, Raise AssertionError).
Proof.
  apply (proj2 (BusStop_initialize_bad_coordinates sample_float_of_string
                  stops_header "90000295,Hlemmur,270.0,-21.75,0"
                  "90000295" "Hlemmur" "270.0" "-21.75" "0" [] [] ∅ ∅
                  eq_refl eq_refl) 270%float (-21.75)%float);
    reflexivity.
Defined.

Lemma snapshot_stays_consistent_witness :
  state_snapshot_wf
    (Bus_refresh_state sample_float_of_string world_bad_status initial_state).1
  /\ state_snapshot_wf
       (Bus_all_buses sample_float_of_string world_bad_status initial_state).1
  /\ state_snapshot_wf
       (Bus_buses_on_route sample_float_of_string world_bad_status (Some "18")
          initial_state).1.
Proof.
  apply (snapshot_stays_consistent sample_float_of_string world_bad_status
           (Some "18") initial_state).
  exact state_snapshot_wf_initial.
Defined.

Lemma parse_snapshot_groups_by_route_witness :
  exists buses,
    Forall2 (fun e b => parse_bus sample_float_of_string e = Ok b)
      (findall "bus" sample_root) buses
    /\ forall k, ({[Some "17" := [sample_bus]]} : gmap (option string) (list Bus)) !! k
                 = match on_route k buses with
                   | [] => None
                   | l => Some l
                   end.
Proof.
  apply (parse_snapshot_groups_by_route sample_float_of_string sample_root).
  exact parse_sample_root.
Defined.

Lemma all_buses_from_remote_witness :
  Bus_all_buses sample_float_of_string world_remote_ok sample_state
  = ({| all_buses := Some {[Some "17" := [sample_bus]]};
        timestamp := Some 121000000;
        io_log := [Fetch; Fetch] |},
     Ok (Some {[Some "17" := [sample_bus]]})).
Proof.
  pose proof (all_buses_from_remote sample_float_of_string world_remote_ok
                sample_state sample_root eq_refl eq_refl) as H.
  rewrite parse_sample_root in H. exact H.
Defined.

Lemma due_refresh_fetches_once_witness :
  fetches (Bus_refresh_state sample_float_of_string world_bad_status sample_state).1
  = (fetches sample_state + 1)%nat
  /\ reads (Bus_refresh_state sample_float_of_string world_bad_status sample_state).1
     = (reads sample_state + 1)%nat.
Proof.
  apply (due_refresh_fetches_once sample_float_of_string world_bad_status sample_state).
  reflexivity.
Defined.

Example findall_sample_bad_root :
  findall "bus" sample_bad_root
  = [sample_bus_element; sample_bad_element; sample_bus_element].
Proof. reflexivity. Qed.

Lemma refresh_aborts_on_bad_record_witness :
  exists e' pre bad post buses,
    findall "bus" sample_bad_root = pre ++ bad :: post
    /\ Forall2 (fun x b => parse_bus sample_float_of_string x = Ok b) pre buses
    /\ parse_bus sample_float_of_string bad = Raise e'
    /\ (Bus_refresh_state sample_float_of_string world_bad_record sample_state).2
       = Raise e'
    /\ all_buses (Bus_refresh_state sample_float_of_string world_bad_record sample_state).1
       = Some (foldl (fun m b => add_bus b m) ∅ buses)
    /\ timestamp (Bus_refresh_state sample_float_of_string world_bad_record sample_state).1
       = timestamp sample_state.
Proof.
  apply (refresh_aborts_on_bad_record sample_float_of_string world_bad_record
           sample_state sample_bad_root sample_bad_element TypeError).
  - reflexivity.
  - reflexivity.
  - rewrite findall_sample_bad_root. apply list_elem_of_further, list_elem_of_here.
  - reflexivity.
Defined.

Lemma failed_refresh_is_retried_witness :
  let st' := {| all_buses := Some ∅; timestamp := Some 0;
                io_log := [Fetch; Fetch; Read] |} in
  timestamp st' = timestamp sample_state
  /\ is_Some (all_buses st')
  /\ (forall w', now world_all_down <= now w' ->
        stale st' w' = true
        /\ Bus_refresh_state sample_float_of_string w' st'
           = Bus_load_state sample_float_of_string w' st').
Proof.
  apply (failed_refresh_is_retried sample_float_of_string world_all_down
           sample_state _ OSError).
  vm_compute. reflexivity.
Defined.

Lemma buses_on_route_agrees_with_all_buses_witness :
  (Bus_buses_on_route sample_float_of_string world_soon (Some "18") sample_state).2
  = Ok []
  /\ all_buses
       (Bus_buses_on_route sample_float_of_string world_soon (Some "18") sample_state).1
     = Some (<[Some "18" := []]> {[Some "17" := [sample_bus]]})
  /\ timestamp
       (Bus_buses_on_route sample_float_of_string world_soon (Some "18") sample_state).1
     = timestamp sample_state
  /\ io_log
       (Bus_buses_on_route sample_float_of_string world_soon (Some "18") sample_state).1
     = io_log sample_state.
Proof.
  assert (H0 : Bus_all_buses sample_float_of_string world_soon sample_state
               = (sample_state, Ok (Some {[Some "17" := [sample_bus]]})))
    by reflexivity.
  exact (buses_on_route_agrees_with_all_buses sample_float_of_string world_soon
           (Some "18") sample_state sample_state _ H0).
Defined.

Lemma entry_points_keep_wf_state_witness :
  wf_state (Bus_all_buses sample_float_of_string world_bad_status initial_state).1
  /\ wf_state
       (Bus_buses_on_route sample_float_of_string world_bad_status (Some "17")
          initial_state).1
  /\ match (Bus_refresh_state sample_float_of_string world_bad_status initial_state).2 with
     | Ok _ =>
         exists m l,
           (Bus_all_buses sample_float_of_string world_bad_status initial_state).2
           = Ok (Some m)
           /\ (Bus_buses_on_route sample_float_of_string world_bad_status (Some "17")
                 initial_state).2 = Ok l
     | Raise e =>
         (Bus_all_buses sample_float_of_string world_bad_status initial_state).2 = Raise e
         /\ (Bus_buses_on_route sample_float_of_string world_bad_status (Some "17")
               initial_state).2 = Raise e
     end.
Proof.
  apply (entry_points_keep_wf_state sample_float_of_string world_bad_status
           (Some "17") initial_state).
  exact wf_initial_state.
Defined.
